(** * import_users.py: Cognito export to Firebase Auth / Firestore migration

    A shallow embedding of [src/import_users.py] and the properties of its
    migration worker, document mapper, bulk deleters and driver.

    Python values are modelled as follows.
    - [str] is [string]; a character is one of the code points U+0000..U+00FF
      (Rocq's [ascii]), and [str.lower], [str.strip] are transcribed for that
      range.
    - [dict] is a [gmap] with [string] keys.
    - [Optional[str]] is [option string]; [None] is [None].
    - Exceptions are values of [Exn]; a call that may raise returns [Res]. *)

From stdpp Require Import base option list strings gmap fin_maps pretty.
From Stdlib Require Import Ascii NArith.

Local Open Scope string_scope.
Local Open Scope list_scope.

(** ** Python string primitives *)

Module PyStr.

(** [ch.isspace()] on U+0000..U+00FF: TAB..CR, FS..US, SPACE, NEL, NBSP. *)
Definition isspace (c : ascii) : bool :=
  let n := N_of_ascii c in
  ((9 <=? n) && (n <=? 13) || (28 <=? n) && (n <=? 32)
   || (n =? 133) || (n =? 160))%N.

(** [ch.lower()] on U+0000..U+00FF: A..Z and the Latin-1 capitals
    U+00C0..U+00DE (the multiplication sign U+00D7 apart) move up by 32. *)
Definition lower_char (c : ascii) : ascii :=
  let n := N_of_ascii c in
  if ((65 <=? n) && (n <=? 90)
      || (192 <=? n) && (n <=? 222) && negb (n =? 215))%N
  then ascii_of_N (n + 32) else c.

(** [s.lower()] *)
Fixpoint lower (s : string) : string :=
  match s with
  | EmptyString => EmptyString
  | String c s' => String (lower_char c) (lower s')
  end.

Fixpoint lstrip (s : string) : string :=
  match s with
  | EmptyString => EmptyString
  | String c s' => if isspace c then lstrip s' else s
  end.

Fixpoint rstrip (s : string) : string :=
  match s with
  | EmptyString => EmptyString
  | String c s' =>
      match rstrip s' with
      | EmptyString => if isspace c then EmptyString else String c EmptyString
      | t => String c t
      end
  end.

(** [s.strip()] *)
Definition strip (s : string) : string := rstrip (lstrip s).

(** [needle in hay] *)
Fixpoint contains (needle hay : string) : bool :=
  if String.prefix needle hay then true
  else match hay with
       | EmptyString => false
       | String _ hay' => contains needle hay'
       end.

(** Truthiness of a [str]: only the empty string is falsy. *)
Definition truthy (s : string) : bool :=
  match s with EmptyString => false | _ => true end.

(** Truthiness of an [Optional[str]]: [None] and [""] are falsy. *)
Definition truthy_opt (o : option string) : bool :=
  match o with Some s => truthy s | None => false end.

(** [f"{o}"] for an [Optional[str]]: [None] is rendered as the text None. *)
Definition format_opt (o : option string) : string :=
  match o with Some s => s | None => "None" end.

(** [f"{n}"] for a non-negative [int]. *)
Definition format_nat (n : nat) : string := pretty n.

End PyStr.

(** ** Data model *)

(** Scalar values stored in request and document dictionaries. *)
Inductive PyVal : Type :=
| VNone
| VBool (b : bool)
| VStr (s : string).

Global Instance PyVal_eq_dec : EqDecision PyVal.
Proof. solve_decision. Defined.

Definition of_opt_str (o : option string) : PyVal :=
  match o with Some s => VStr s | None => VNone end.

(** One entry of the Cognito attribute list: [{"Name": ..., "Value": ...}]. *)
Record Attribute : Type := mkAttribute { Name : string; Value : string }.

(** A source user record of the export file. *)
Record UserData : Type := mkUserData {
  Username : string;
  Attributes : list Attribute;
  UserCreateDate : PyVal;
  UserLastModifiedDate : PyVal;
  Enabled : bool;
  UserStatus : string
}.

(** [auth.UserRecord], as far as the program reads it. *)
Record UserRecord : Type := mkUserRecord { uid : string; email : option string }.

(** A field of a Firestore document: a scalar or a nested map of scalars. *)
Inductive DocVal : Type :=
| DVal (v : PyVal)
| DMap (m : gmap string PyVal).

(** ** Record extractor and document mapper *)

(** [next((attr["Value"] for attr in attributes if attr["Name"] == name), None)] *)
Fixpoint get_attribute_value (attributes : list Attribute) (name : string)
  : option string :=
  match attributes with
  | [] => None
  | attr :: rest =>
      if String.eqb (Name attr) name then Some (Value attr)
      else get_attribute_value rest name
  end.

(** [v == "true"] for an [Optional[str]] *)
Definition eq_true_str (o : option string) : bool :=
  match o with Some s => String.eqb s "true" | None => false end.

Definition firestore_attributes (attributes : list Attribute) : gmap string PyVal :=
  {[ "email" := of_opt_str (get_attribute_value attributes "email");
     "email_verified" :=
       VBool (eq_true_str (get_attribute_value attributes "email_verified"));
     "phone_number" := of_opt_str (get_attribute_value attributes "phone_number");
     "phone_number_verified" :=
       VBool (eq_true_str (get_attribute_value attributes "phone_number_verified"));
     "family_name" := of_opt_str (get_attribute_value attributes "family_name");
     "given_name" := of_opt_str (get_attribute_value attributes "given_name");
     "sub" := of_opt_str (get_attribute_value attributes "sub") ]}.

Definition create_firestore_user_data (user_data : UserData) (user_record : UserRecord)
  : gmap string DocVal :=
  let attributes := Attributes user_data in
  {[ "Username" := DVal (VStr (Username user_data));
     "Attributes" := DMap (firestore_attributes attributes);
     "UserCreateDate" := DVal (UserCreateDate user_data);
     "UserLastModifiedDate" := DVal (UserLastModifiedDate user_data);
     "Enabled" := DVal (VBool (Enabled user_data));
     "UserStatus" := DVal (VStr (UserStatus user_data));
     "firebase_uid" := DVal (VStr (uid user_record)) ]}.

(** ** The identity-creation request of [migrate_user] *)

(** The dictionary literal of [user_kwargs], before the phone number is added
    and the [None] values are removed. *)
Definition user_kwargs_literal (user_data : UserData) (email_v : string)
    (email_verified given_name family_name : option string) : gmap string PyVal :=
  {[ "uid" := VStr (Username user_data);
     "email" := VStr email_v;
     "password" := VStr "Default@123";
     "email_verified" :=
       VBool (match email_verified with
              | Some ev =>
                  if PyStr.truthy ev then String.eqb (PyStr.lower ev) "true"
                  else false
              | None => false
              end);
     "display_name" :=
       (if PyStr.truthy_opt given_name || PyStr.truthy_opt family_name
        then VStr (PyStr.strip (PyStr.format_opt given_name +:+ " "
                                +:+ PyStr.format_opt family_name))
        else VNone);
     "disabled" := VBool (negb (Enabled user_data)) ]}.

(** [user_kwargs] as it stands when the identity lookup starts. *)
Definition build_user_kwargs (user_data : UserData) (email_v : string)
    (email_verified phone_number given_name family_name : option string)
  : gmap string PyVal :=
  let user_kwargs :=
    user_kwargs_literal user_data email_v email_verified given_name family_name in
  let user_kwargs :=
    match phone_number with
    | Some p => if PyStr.truthy p then <["phone_number" := VStr p]> user_kwargs
                else user_kwargs
    | None => user_kwargs
    end in
  filter (λ kv, kv.2 ≠ VNone) user_kwargs.

(** ** Exceptions, results and the external platform *)

(** The exception classes the program tells apart. [UserNotFoundError] and
    [ValueError] are caught by name; [OtherException] stands for every other
    subclass of [Exception]. *)
Inductive ExnClass : Type := UserNotFoundError | ValueError | OtherException.

(** An exception: its class and [str(e)]. *)
Record Exn : Type := mkExn { exn_class : ExnClass; exn_str : string }.

Inductive Res (A : Type) : Type :=
| Ok (a : A)
| Raise (e : Exn).
Arguments Ok {A} a.
Arguments Raise {A} e.

Inductive Credential : Type := ServiceAccount (path : string).

(** The process-wide [firestore.Client] handle. *)
Inductive Client : Type := FirestoreClient.

Record CollectionReference : Type := mkCollection { collection_name : string }.
Record DocumentReference : Type :=
  mkDocument { parent : CollectionReference; document_id : string }.

Module DocumentSnapshot.
Record t : Type := mk { id : string; reference : DocumentReference }.
End DocumentSnapshot.

(** [db.collection(name)] and [ref.document(id)] build references locally. *)
Definition collection (db : Client) (name : string) : CollectionReference :=
  mkCollection name.
Definition document (c : CollectionReference) (doc_id : string) : DocumentReference :=
  mkDocument c doc_id.

(** The content of [cognito_users.json]. *)
Record CognitoData : Type := mkCognitoData { Users : list UserData }.

(** [auth.ListUsersPage]: the identities of one page, and [get_next_page()],
    which asks the platform for the following page and returns it, [None]
    after the last page, or raises. *)
#[warnings="-register-all"]
Inductive ListUsersPage (W : Type) : Type :=
| mkListUsersPage (users : list UserRecord)
                  (get_next_page : W → Res (option (ListUsersPage W)) * W).
Arguments mkListUsersPage {W} users get_next_page.

Definition users {W} (page : ListUsersPage W) : list UserRecord :=
  match page with mkListUsersPage us _ => us end.

(** The generator returned by [users_ref.stream()]: each step yields the next
    snapshot, ends the iteration, or raises. *)
#[warnings="-register-all"]
Inductive DocStream (W : Type) : Type :=
| mkDocStream (next : W → Res (option (DocumentSnapshot.t * DocStream W)) * W).
Arguments mkDocStream {W} next.

(** The external collaborators, over a state [W] of the outside world: the
    Firebase Admin SDK, the credential and export files, and the console.
    Every operation may change the world and may raise. *)
Class Platform (W : Type) : Type := {
  get_app : W → Res unit * W;
  Certificate : string → W → Res Credential * W;
  initialize_app : Credential → W → Res unit * W;
  firestore_client : W → Res Client * W;
  get_user_by_email : string → W → Res UserRecord * W;
  create_user : gmap string PyVal → W → Res UserRecord * W;
  generate_password_reset_link : string → W → Res string * W;
  document_set : DocumentReference → gmap string DocVal → bool → W → Res unit * W;
  document_delete : DocumentReference → W → Res unit * W;
  collection_stream : CollectionReference → DocStream W;
  list_users : W → Res (ListUsersPage W) * W;
  delete_user : string → W → Res unit * W;
  open_json_load : string → W → Res CognitoData * W;
  input : string → W → Res string * W
}.

(** ** Observable events *)

Inductive Level : Type := INFO | WARNING | ERROR.

(** What a run leaves behind, in order: log records, console output and the
    calls made to the platform. Deletion and listing calls carry their
    outcome, since the tallies depend on it. *)
Inductive Event : Type :=
| Log (lvl : Level) (msg : string)
| Print (msg : string)
| Input (prompt : string)
| GetApp
| LoadCertificate (path : string)
| InitializeApp
| FirestoreClientCall
| GetUserByEmail (email_v : string)
| CreateUser (kwargs : gmap string PyVal)
| GeneratePasswordResetLink (email_v : string)
| DocumentSet (ref : DocumentReference) (data : gmap string DocVal) (merge : bool)
| Stream (c : CollectionReference)
| DocumentDelete (ref : DocumentReference) (ok : bool)
| ListUsers
| GetNextPage
| PageServed (page_users : list UserRecord)
| DeleteUser (uid_v : string) (ok : bool)
| OpenJsonLoad (path : string).

Definition is_ok {A} (r : Res A) : bool :=
  match r with Ok _ => true | Raise _ => false end.

(** ** The monad of the program: world state, exceptions, event trace *)

Definition M (W A : Type) : Type := W → Res A * W * list Event.

Definition ret {W A} (a : A) : M W A := λ w, (Ok a, w, []).

Definition bind {W A B} (m : M W A) (f : A → M W B) : M W B :=
  λ w, match m w with
       | (Ok a, w1, t1) => let '(r, w2, t2) := f a w1 in (r, w2, t1 ++ t2)
       | (Raise e, w1, t1) => (Raise e, w1, t1)
       end.

Definition raise {W A} (e : Exn) : M W A := λ w, (Raise e, w, []).

(** [try: m  except Exception as e: handler e] *)
Definition try_except {W A} (m : M W A) (handler : Exn → M W A) : M W A :=
  λ w, match m w with
       | (Ok a, w1, t1) => (Ok a, w1, t1)
       | (Raise e, w1, t1) => let '(r, w2, t2) := handler e w1 in (r, w2, t1 ++ t2)
       end.

(** [try: m  except cls: handler]: other classes keep propagating. *)
Definition try_except_class {W A} (cls : ExnClass) (m : M W A) (handler : M W A)
  : M W A :=
  try_except m (λ e, match cls, exn_class e with
                     | UserNotFoundError, UserNotFoundError
                     | ValueError, ValueError => handler
                     | _, _ => raise e
                     end).

Definition emit {W} (ev : Event) : M W unit := λ w, (Ok (), w, [ev]).

(** A platform call, recorded by an event that may depend on its outcome. *)
Definition call_with {W A} (ev : Res A → list Event) (h : W → Res A * W) : M W A :=
  λ w, let '(r, w1) := h w in (r, w1, ev r).

Definition call {W A} (ev : Event) (h : W → Res A * W) : M W A :=
  call_with (λ _, [ev]) h.

(** [call_with ev h] followed by [k]; written as one step so that a loop over
    a page chain or a generator is structurally recursive. *)
Definition call_then {W A B} (ev : Res A → list Event) (h : W → Res A * W)
    (k : A → M W B) : M W B :=
  λ w, match h w with
       | (Ok a, w1) => let '(r, w2, t2) := k a w1 in (r, w2, ev (Ok a) ++ t2)
       | (Raise e, w1) => (Raise e, w1, ev (Raise e))
       end.

Declare Scope py_scope.
Delimit Scope py_scope with py.
Notation "'let*' x ':=' m 'in' k" := (bind m (λ x, k))
  (at level 10, x pattern, m at level 100, k at level 200) : py_scope.
Notation "m '>>' k" := (bind m (λ _, k))
  (at level 100, k at level 200, right associativity) : py_scope.

(** [logging.info], [logging.warning], [logging.error], [print] *)
Definition logging_info {W} (msg : string) : M W unit := emit (Log INFO msg).
Definition logging_warning {W} (msg : string) : M W unit := emit (Log WARNING msg).
Definition logging_error {W} (msg : string) : M W unit := emit (Log ERROR msg).
Definition print {W} (msg : string) : M W unit := emit (Print msg).

(** ** The program *)

(** ["INVALID_PHONE_NUMBER" in str(e) or "PHONE_NUMBER_EXISTS" in str(e)] *)
Definition phone_number_issue (e : Exn) : bool :=
  PyStr.contains "INVALID_PHONE_NUMBER" (exn_str e)
  || PyStr.contains "PHONE_NUMBER_EXISTS" (exn_str e).

Section Program.
Context {W : Type} `{Platform W}.
Local Open Scope py_scope.

(** Lines 76-98 of [migrate_user]: look the identity up by email, create it
    when it is not found, with one retry without the phone number. *)
Definition lookup_or_create (email_v : string) (user_kwargs : gmap string PyVal)
  : M W UserRecord :=
  try_except_class UserNotFoundError
    (let* user_record := call (GetUserByEmail email_v) (get_user_by_email email_v) in
     logging_info ("User " +:+ email_v +:+ " already exists in Auth") >>
     ret user_record)
    (let* user_record :=
       try_except
         (let* user_record := call (CreateUser user_kwargs) (create_user user_kwargs) in
          logging_info ("Created Auth user with phone: " +:+ email_v) >>
          ret user_record)
         (λ e,
           if phone_number_issue e then
             logging_warning ("Phone number issue for " +:+ email_v +:+ ": "
                              +:+ exn_str e +:+ ". Creating user without phone.") >>
             let user_kwargs := delete "phone_number" user_kwargs in
             let* user_record :=
               call (CreateUser user_kwargs) (create_user user_kwargs) in
             logging_info ("Created Auth user without phone: " +:+ email_v) >>
             ret user_record
           else raise e) in
     let* reset_link :=
       call (GeneratePasswordResetLink email_v)
            (generate_password_reset_link email_v) in
     logging_info ("Password reset link for " +:+ email_v +:+ ": " +:+ reset_link) >>
     ret user_record).

(** The [try] block of [migrate_user], lines 59-109. *)
Definition migrate_user_try (user_data : UserData) (db : Client) (email_v : string)
    (email_verified phone_number given_name family_name : option string)
  : M W (option UserRecord) :=
  let user_kwargs :=
    build_user_kwargs user_data email_v email_verified phone_number
                      given_name family_name in
  let* user_record := lookup_or_create email_v user_kwargs in
  let users_ref := collection db "users" in
  let user_doc_ref := document users_ref (uid user_record) in
  let firestore_data := create_firestore_user_data user_data user_record in
  call (DocumentSet user_doc_ref firestore_data true)
       (document_set user_doc_ref firestore_data true) >>
  logging_info ("Updated Firestore data for user: " +:+ email_v) >>
  ret (Some user_record).

(** [migrate_user(user_data, db)] *)
Definition migrate_user (user_data : UserData) (db : Client)
  : M W (option UserRecord) :=
  let attributes := Attributes user_data in
  let email_o := get_attribute_value attributes "email" in
  let email_verified := get_attribute_value attributes "email_verified" in
  let phone_number := get_attribute_value attributes "phone_number" in
  let given_name := get_attribute_value attributes "given_name" in
  let family_name := get_attribute_value attributes "family_name" in
  if negb (PyStr.truthy_opt email_o) then
    logging_warning "Skipping user: No email found" >>
    ret None
  else
    let email_v := default "" email_o in
    try_except
      (migrate_user_try user_data db email_v email_verified phone_number
                        given_name family_name)
      (λ e,
        logging_error ("Error migrating user " +:+ email_v +:+ ": " +:+ exn_str e) >>
        ret None).

(** [try: app = firebase_admin.get_app()
     except ValueError: cred = credentials.Certificate(...); initialize_app(cred)] *)
Definition ensure_app : M W unit :=
  try_except_class ValueError
    (call GetApp get_app)
    (let* cred := call (LoadCertificate "service-account.json")
                       (Certificate "service-account.json") in
     call InitializeApp (initialize_app cred)).

(** One iteration of the loop of [delete_firestore_users]. *)
Definition delete_one_doc (doc : DocumentSnapshot.t) (deleted_count failed_count : nat)
  : M W (nat * nat) :=
  try_except
    (call_with (λ r, [DocumentDelete (DocumentSnapshot.reference doc) (is_ok r)])
               (document_delete (DocumentSnapshot.reference doc)) >>
     logging_info ("Deleted Firestore data for user: " +:+ DocumentSnapshot.id doc) >>
     ret (S deleted_count, failed_count))
    (λ e,
      logging_error ("Failed to delete Firestore data for user "
                     +:+ DocumentSnapshot.id doc +:+ ": " +:+ exn_str e) >>
      ret (deleted_count, S failed_count)).

(** [for doc in docs: ...] *)
Fixpoint delete_docs (docs : DocStream W) (deleted_count failed_count : nat)
  : M W (nat * nat) :=
  match docs with
  | mkDocStream next =>
      call_then (λ _, []) next (λ step,
        match step with
        | None => ret (deleted_count, failed_count)
        | Some (doc, rest) =>
            let* counts := delete_one_doc doc deleted_count failed_count in
            delete_docs rest (fst counts) (snd counts)
        end)
  end.

(** [delete_firestore_users()] *)
Definition delete_firestore_users : M W (nat * nat) :=
  try_except
    (ensure_app >>
     let* db := call FirestoreClientCall firestore_client in
     let users_ref := collection db "users" in
     let* docs := (emit (Stream users_ref) >> ret (collection_stream users_ref)) in
     let* counts := delete_docs docs 0 0 in
     logging_info ("Firestore deletion completed! Deleted: "
                   +:+ PyStr.format_nat (fst counts) +:+ ", Failed: "
                   +:+ PyStr.format_nat (snd counts)) >>
     ret counts)
    (λ e,
      logging_error ("Fatal error during Firestore deletion: " +:+ exn_str e) >>
      raise e).

(** One iteration of the inner loop of [delete_auth_users]. *)
Definition delete_one_user (user : UserRecord) (auth_deleted auth_failed : nat)
  : M W (nat * nat) :=
  try_except
    (call_with (λ r, [DeleteUser (uid user) (is_ok r)]) (delete_user (uid user)) >>
     logging_info ("Deleted auth user " +:+ PyStr.format_opt (email user)
                   +:+ " (UID: " +:+ uid user +:+ ")") >>
     ret (S auth_deleted, auth_failed))
    (λ e,
      logging_error ("Failed to delete auth user " +:+ PyStr.format_opt (email user)
                     +:+ ": " +:+ exn_str e) >>
      ret (auth_deleted, S auth_failed)).

(** [for user in page.users: ...] *)
Fixpoint delete_page_users (us : list UserRecord) (auth_deleted auth_failed : nat)
  : M W (nat * nat) :=
  match us with
  | [] => ret (auth_deleted, auth_failed)
  | user :: rest =>
      let* counts := delete_one_user user auth_deleted auth_failed in
      delete_page_users rest (fst counts) (snd counts)
  end.

(** [while page: ...; page = page.get_next_page()]. A [ListUsersPage] object
    is always truthy, so the loop ends when [get_next_page()] returns [None]. *)
Fixpoint delete_pages (page : ListUsersPage W) (auth_deleted auth_failed : nat)
  : M W (nat * nat) :=
  match page with
  | mkListUsersPage page_users get_next_page =>
      let* counts := delete_page_users page_users auth_deleted auth_failed in
      call_then (λ r, match r with
                      | Ok (Some p) => [GetNextPage; PageServed (users p)]
                      | _ => [GetNextPage]
                      end)
                get_next_page
                (λ next_page,
                  match next_page with
                  | None => ret counts
                  | Some p => delete_pages p (fst counts) (snd counts)
                  end)
  end.

(** Lines 163-165: [if delete_firestore: ...], the cascade into the store
    deleter, whose tallies are logged and dropped. *)
Definition cascade_to_store (delete_firestore : bool) : M W unit :=
  if delete_firestore then
    let* fs := delete_firestore_users in
    logging_info ("Firestore deletion: Deleted " +:+ PyStr.format_nat (fst fs)
                  +:+ ", Failed " +:+ PyStr.format_nat (snd fs))
  else ret ().

(** [delete_auth_users(delete_firestore)] *)
Definition delete_auth_users (delete_firestore : bool) : M W (nat * nat) :=
  try_except
    (ensure_app >>
     cascade_to_store delete_firestore >>
     let* page :=
       call_with (λ r, match r with
                       | Ok p => [ListUsers; PageServed (users p)]
                       | Raise _ => [ListUsers]
                       end) list_users in
     let* counts := delete_pages page 0 0 in
     logging_info ("Auth deletion completed! Deleted: "
                   +:+ PyStr.format_nat (fst counts) +:+ ", Failed: "
                   +:+ PyStr.format_nat (snd counts)) >>
     ret counts)
    (λ e,
      logging_error ("Fatal error during deletion: " +:+ exn_str e) >>
      raise e).

(** [for user in cognito_data["Users"]: ...] with the two counters of
    [stats]. *)
Fixpoint migrate_users (us : list UserData) (db : Client) (success failed : nat)
  : M W (nat * nat) :=
  match us with
  | [] => ret (success, failed)
  | user :: rest =>
      let* result := migrate_user user db in
      match result with
      | Some _ => migrate_users rest db (S success) failed
      | None => migrate_users rest db success (S failed)
      end
  end.

(** Lines 201-209 of [main]: initialise the SDK if needed and get the
    Firestore client. *)
Definition connect : M W Client :=
  ensure_app >>
  call FirestoreClientCall firestore_client.

(** The branch [action == "1"] of [main]. *)
Definition migrate_action : M W unit :=
  let* db := connect in
  let* cognito_data :=
    call (OpenJsonLoad "cognito_users.json") (open_json_load "cognito_users.json") in
  let total := length (Users cognito_data) in
  let* stats := migrate_users (Users cognito_data) db 0 0 in
  logging_info "Migration completed!" >>
  logging_info ("Total users processed: " +:+ PyStr.format_nat total) >>
  logging_info ("Successfully migrated: " +:+ PyStr.format_nat (fst stats)) >>
  logging_info ("Failed to migrate: " +:+ PyStr.format_nat (snd stats)).

(** The branch [action == "2"] of [main]. *)
Definition delete_action : M W unit :=
  let* delete_type :=
    call (Input "Delete from (1: Both Auth and Firestore, 2: Auth only, 3: Firestore only): ")
         (input "Delete from (1: Both Auth and Firestore, 2: Auth only, 3: Firestore only): ") in
  let* confirm :=
    call (Input "Are you sure? This will permanently delete the data (yes/no): ")
         (input "Are you sure? This will permanently delete the data (yes/no): ") in
  if String.eqb (PyStr.lower confirm) "yes" then
    if String.eqb delete_type "1" then
      let* counts := delete_auth_users true in
      print ("Deleted from Auth: " +:+ PyStr.format_nat (fst counts)
             +:+ ", Failed: " +:+ PyStr.format_nat (snd counts))
    else if String.eqb delete_type "2" then
      let* counts := delete_auth_users false in
      print ("Deleted from Auth: " +:+ PyStr.format_nat (fst counts)
             +:+ ", Failed: " +:+ PyStr.format_nat (snd counts))
    else if String.eqb delete_type "3" then
      let* counts := delete_firestore_users in
      print ("Deleted from Firestore: " +:+ PyStr.format_nat (fst counts)
             +:+ ", Failed: " +:+ PyStr.format_nat (snd counts))
    else print "Invalid option"
  else print "Deletion cancelled".

(** [while True: ...] of [main], for at most [fuel] operator actions; the
    result is [None] when the loop is still running after them. *)
Fixpoint main_loop (fuel : nat) : M W (option unit) :=
  match fuel with
  | O => ret None
  | S fuel' =>
      let* action :=
        call (Input "Choose action (1: Migrate users, 2: Delete users, 3: Exit): ")
             (input "Choose action (1: Migrate users, 2: Delete users, 3: Exit): ") in
      if String.eqb action "1" then migrate_action >> main_loop fuel'
      else if String.eqb action "2" then delete_action >> main_loop fuel'
      else if String.eqb action "3" then print "Exiting..." >> ret (Some ())
      else print "Invalid option. Please choose 1, 2, or 3" >> main_loop fuel'
  end.

(** [main()] *)
Definition main (fuel : nat) : M W (option unit) :=
  try_except (main_loop fuel)
    (λ e, logging_error ("Fatal error: " +:+ exn_str e) >> raise e).

End Program.

(** ** Reading a trace *)

(** The requests passed to [auth.create_user], in call order. *)
Definition created_requests (t : list Event) : list (gmap string PyVal) :=
  omap (λ ev, match ev with CreateUser kw => Some kw | _ => None end) t.

(** The uids passed to [auth.delete_user], in call order. *)
Definition delete_attempts (t : list Event) : list string :=
  omap (λ ev, match ev with DeleteUser u _ => Some u | _ => None end) t.

(** The identities of the pages the platform served, in order. *)
Definition listed_identities (t : list Event) : list UserRecord :=
  mjoin (omap (λ ev, match ev with PageServed us => Some us | _ => None end) t).

(** The documents passed to [set], with their reference and merge flag. *)
Definition document_writes (t : list Event)
  : list (DocumentReference * gmap string DocVal * bool) :=
  omap (λ ev, match ev with DocumentSet r d m => Some (r, d, m) | _ => None end) t.

(** The emails passed to [auth.generate_password_reset_link]. *)
Definition reset_link_requests (t : list Event) : list string :=
  omap (λ ev, match ev with GeneratePasswordResetLink e => Some e | _ => None end) t.

Definition is_delete_user (ok : bool) (ev : Event) : bool :=
  match ev with DeleteUser _ b => Bool.eqb b ok | _ => false end.

Definition is_document_delete (ok : bool) (ev : Event) : bool :=
  match ev with DocumentDelete _ b => Bool.eqb b ok | _ => false end.

(** How many [auth.delete_user] calls returned ([ok = true]) or raised. *)
Definition count_deleted_users (ok : bool) (t : list Event) : nat :=
  length (List.filter (is_delete_user ok) t).

(** How many [doc.reference.delete()] calls returned or raised. *)
Definition count_deleted_docs (ok : bool) (t : list Event) : nat :=
  length (List.filter (is_document_delete ok) t).

(** The error records [delete_auth_users] writes for a failed deletion. *)
Definition is_auth_failure_log (ev : Event) : bool :=
  match ev with
  | Log ERROR msg => String.prefix "Failed to delete auth user " msg
  | _ => false
  end.

Definition count_auth_failure_logs (t : list Event) : nat :=
  length (List.filter is_auth_failure_log t).

(** Events that say nothing about identity deletion. *)
Definition auth_silent (ev : Event) : bool :=
  match ev with
  | DeleteUser _ _ | PageServed _ => false
  | _ => negb (is_auth_failure_log ev)
  end.

(** Events that say nothing about document deletion. *)
Definition store_silent (ev : Event) : bool :=
  match ev with DocumentDelete _ _ => false | _ => true end.

Definition is_platform_call (ev : Event) : bool :=
  match ev with
  | Log _ _ | Print _ | PageServed _ => false
  | _ => true
  end.

(** The calls made to the outside world: the trace without log records,
    console output and page markers. *)
Definition platform_calls (t : list Event) : list Event :=
  List.filter is_platform_call t.

(** The log records of a trace. *)
Definition log_records (t : list Event) : list (Level * string) :=
  omap (λ ev, match ev with Log l m => Some (l, m) | _ => None end) t.

(** ** Merge write *)

(** Modelled from the spec: the document store is an external service, and
    [set(data, merge=True)] is specified as: fields present in the new document
    overwrite same-named fields; fields not present in the new document but
    present in the stored document are preserved. [merge_shallow] reads
    "field" as a top-level field; [merge_document] also merges a nested map
    field by field, as the glossary's overlay of the supplied fields. *)
Definition merge_shallow (stored new : gmap string DocVal) : gmap string DocVal :=
  new ∪ stored.

Definition merge_field (new old : DocVal) : DocVal :=
  match new, old with
  | DMap n, DMap o => DMap (n ∪ o)
  | _, _ => new
  end.

Definition merge_document (stored new : gmap string DocVal) : gmap string DocVal :=
  union_with (λ n o, Some (merge_field n o)) new stored.

(** The value of [Attributes.key] in a document. *)
Definition attribute_of (doc : gmap string DocVal) (key : string) : option PyVal :=
  match doc !! "Attributes" with
  | Some (DMap attrs) => attrs !! key
  | _ => None
  end.

(** ** An in-memory platform

    A concrete instance of [Platform] on which the program can be run: a list
    of identities, a [users] collection, the two files and the operator's
    typed lines. It is used for the concrete runs below; the general theorems
    hold for every instance. *)

Module InMemory.

Record Identity : Type := mkIdentity {
  record : UserRecord;
  phone : option string
}.

Record World : Type := mkWorld {
  app_initialized : bool;
  credential_file : bool;
  export_file : option CognitoData;
  console_in : list string;
  identities : list Identity;
  protected_uids : list string;
  store : gmap string (gmap string DocVal);
  store_online : bool;
  page_size : nat
}.

Definition with_app (w : World) : World :=
  mkWorld true (credential_file w) (export_file w) (console_in w) (identities w)
          (protected_uids w) (store w) (store_online w) (page_size w).
Definition with_console (l : list string) (w : World) : World :=
  mkWorld (app_initialized w) (credential_file w) (export_file w) l (identities w)
          (protected_uids w) (store w) (store_online w) (page_size w).
Definition with_identities (l : list Identity) (w : World) : World :=
  mkWorld (app_initialized w) (credential_file w) (export_file w) (console_in w) l
          (protected_uids w) (store w) (store_online w) (page_size w).
Definition with_store (s : gmap string (gmap string DocVal)) (w : World) : World :=
  mkWorld (app_initialized w) (credential_file w) (export_file w) (console_in w)
          (identities w) (protected_uids w) s (store_online w) (page_size w).

Definition other (msg : string) : Exn := mkExn OtherException msg.

Definition has_email (e : string) (i : Identity) : bool :=
  match email (record i) with Some e' => String.eqb e' e | None => false end.
Definition has_uid (u : string) (i : Identity) : bool :=
  String.eqb (uid (record i)) u.
Definition has_phone (p : string) (i : Identity) : bool :=
  match phone i with Some p' => String.eqb p' p | None => false end.

Definition fake_get_app (w : World) : Res unit * World :=
  if app_initialized w then (Ok (), w)
  else (Raise (mkExn ValueError "The default Firebase app does not exist."), w).

Definition fake_certificate (path : string) (w : World) : Res Credential * World :=
  if credential_file w then (Ok (ServiceAccount path), w)
  else (Raise (other ("No such file or directory: " +:+ path)), w).

Definition fake_get_user_by_email (e : string) (w : World) : Res UserRecord * World :=
  match List.find (has_email e) (identities w) with
  | Some i => (Ok (record i), w)
  | None =>
      (Raise (mkExn UserNotFoundError
                    ("No user record found for the provided email: " +:+ e)), w)
  end.

Definition fake_create_user (kw : gmap string PyVal) (w : World)
  : Res UserRecord * World :=
  match kw !! "uid", kw !! "email" with
  | Some (VStr u), Some (VStr e) =>
      if existsb (has_uid u) (identities w) then (Raise (other "DUPLICATE_LOCAL_ID"), w)
      else if existsb (has_email e) (identities w) then (Raise (other "EMAIL_EXISTS"), w)
      else
        match kw !! "phone_number" with
        | Some (VStr p) =>
            if negb (String.prefix "+" p) then (Raise (other "INVALID_PHONE_NUMBER"), w)
            else if existsb (has_phone p) (identities w)
                 then (Raise (other "PHONE_NUMBER_EXISTS"), w)
                 else let r := mkUserRecord u (Some e) in
                      (Ok r, with_identities (identities w ++ [mkIdentity r (Some p)]) w)
        | Some _ => (Raise (mkExn ValueError "Invalid phone number"), w)
        | None => let r := mkUserRecord u (Some e) in
                  (Ok r, with_identities (identities w ++ [mkIdentity r None]) w)
        end
  | _, _ => (Raise (mkExn ValueError "Invalid uid or email"), w)
  end.

Definition fake_document_set (ref : DocumentReference) (data : gmap string DocVal)
    (merge : bool) (w : World) : Res unit * World :=
  if store_online w then
    let old := default ∅ (store w !! document_id ref) in
    let new := if merge then merge_document old data else data in
    (Ok (), with_store (<[document_id ref := new]> (store w)) w)
  else (Raise (other "503 The service is currently unavailable."), w).

Definition fake_document_delete (ref : DocumentReference) (w : World)
  : Res unit * World :=
  if store_online w then (Ok (), with_store (delete (document_id ref) (store w)) w)
  else (Raise (other "503 The service is currently unavailable."), w).

Definition snapshot (c : CollectionReference) (i : string) : DocumentSnapshot.t :=
  DocumentSnapshot.mk i (document c i).

Fixpoint stream_rest (c : CollectionReference) (ids : list string) : DocStream World :=
  mkDocStream (λ w,
    (Ok (match ids with
         | [] => None
         | i :: rest => Some (snapshot c i, stream_rest c rest)
         end), w)).

Definition fake_stream (c : CollectionReference) : DocStream World :=
  mkDocStream (λ w,
    if store_online w then
      match (map_to_list (store w)).*1 with
      | [] => (Ok None, w)
      | i :: rest => (Ok (Some (snapshot c i, stream_rest c rest)), w)
      end
    else (Raise (other "503 The service is currently unavailable."), w)).

Fixpoint chunks (fuel n : nat) (l : list UserRecord) : list (list UserRecord) :=
  match fuel, l with
  | S fuel', _ :: _ => take (S n) l :: chunks fuel' n (drop (S n) l)
  | _, _ => []
  end.

Fixpoint page_chain (first : list UserRecord) (rest : list (list UserRecord))
  : ListUsersPage World :=
  mkListUsersPage first (λ w,
    (Ok (match rest with
         | [] => None
         | p :: ps => Some (page_chain p ps)
         end), w)).

Definition fake_list_users (w : World) : Res (ListUsersPage World) * World :=
  let all := record <$> identities w in
  match chunks (length all) (pred (page_size w)) all with
  | [] => (Ok (page_chain [] []), w)
  | p :: ps => (Ok (page_chain p ps), w)
  end.

Definition fake_delete_user (u : string) (w : World) : Res unit * World :=
  if existsb (String.eqb u) (protected_uids w)
  then (Raise (other "INSUFFICIENT_PERMISSION"), w)
  else if existsb (has_uid u) (identities w)
       then (Ok (), with_identities
                      (List.filter (λ i, negb (has_uid u i)) (identities w)) w)
       else (Raise (mkExn UserNotFoundError
                          ("No user record found for the given identifier: " +:+ u)), w).

Definition fake_open_json_load (path : string) (w : World) : Res CognitoData * World :=
  match export_file w with
  | Some d => (Ok d, w)
  | None => (Raise (other ("No such file or directory: " +:+ path)), w)
  end.

Definition fake_input (prompt : string) (w : World) : Res string * World :=
  match console_in w with
  | line :: rest => (Ok line, with_console rest w)
  | [] => (Raise (other "EOF when reading a line"), w)
  end.

#[export] Instance platform : Platform World := {|
  get_app := fake_get_app;
  Certificate := fake_certificate;
  initialize_app := λ _ w, (Ok (), with_app w);
  firestore_client := λ w, (Ok FirestoreClient, w);
  get_user_by_email := fake_get_user_by_email;
  create_user := fake_create_user;
  generate_password_reset_link :=
    λ e w, (Ok ("https://auth.example/reset?email=" +:+ e), w);
  document_set := fake_document_set;
  document_delete := fake_document_delete;
  collection_stream := fake_stream;
  list_users := fake_list_users;
  delete_user := fake_delete_user;
  open_json_load := fake_open_json_load;
  input := fake_input
|}.

(** A freshly started process facing an empty project. *)
Definition empty_project : World :=
  mkWorld false true None [] [] [] ∅ true 2.

Definition with_export (us : list UserData) (w : World) : World :=
  mkWorld (app_initialized w) (credential_file w) (Some (mkCognitoData us))
          (console_in w) (identities w) (protected_uids w) (store w)
          (store_online w) (page_size w).
Definition with_protected (l : list string) (w : World) : World :=
  mkWorld (app_initialized w) (credential_file w) (export_file w) (console_in w)
          (identities w) l (store w) (store_online w) (page_size w).
Definition offline (w : World) : World :=
  mkWorld (app_initialized w) (credential_file w) (export_file w) (console_in w)
          (identities w) (protected_uids w) (store w) false (page_size w).

End InMemory.

(** The result and the trace of a run. *)
Definition result_of {W A} (run : Res A * W * list Event) : Res A := run.1.1.
Definition world_of {W A} (run : Res A * W * list Event) : W := run.1.2.
Definition trace_of {W A} (run : Res A * W * list Event) : list Event := run.2.


(** The request [migrate_user] builds for a record, from its attributes. *)
Definition request_of (user_data : UserData) (email_v : string) : gmap string PyVal :=
  let attributes := Attributes user_data in
  build_user_kwargs user_data email_v
    (get_attribute_value attributes "email_verified")
    (get_attribute_value attributes "phone_number")
    (get_attribute_value attributes "given_name")
    (get_attribute_value attributes "family_name").

(** The summary [main] logs after a migration run. *)
Definition summary_records (total success failed : nat) : list Event :=
  [Log INFO "Migration completed!";
   Log INFO ("Total users processed: " +:+ PyStr.format_nat total);
   Log INFO ("Successfully migrated: " +:+ PyStr.format_nat success);
   Log INFO ("Failed to migrate: " +:+ PyStr.format_nat failed)].

(** The five attributes the document mapper copies as strings. *)
Definition string_attributes : list string :=
  ["email"; "phone_number"; "family_name"; "given_name"; "sub"].

(** ** Sample records *)

Module Samples.
Import InMemory.

(** Scenario B: a record without an email attribute. *)
Definition no_email : UserData :=
  mkUserData "u2" [mkAttribute "given_name" "Ann"; mkAttribute "sub" "s-2"]
             (VStr "2024-01-01T00:00:00Z") (VStr "2024-01-02T00:00:00Z")
             true "CONFIRMED".

(** A record whose [email_verified] is in capitals, with a given name, no
    family name and a phone number the platform rejects. *)
Definition john : UserData :=
  mkUserData "u1"
             [mkAttribute "email" "a@x.com"; mkAttribute "email_verified" "TRUE";
              mkAttribute "given_name" "John"; mkAttribute "phone_number" "12345"]
             (VStr "2024-01-01T00:00:00Z") (VStr "2024-01-02T00:00:00Z")
             true "CONFIRMED".

Definition john_identity : UserRecord := mkUserRecord "fb-1" (Some "a@x.com").

(** A project in which John's email already has an identity and a stored
    document that holds a family name. *)
Definition john_exists : World :=
  with_store {[ "fb-1" := {[ "Attributes" := DMap {[ "family_name" := VStr "Doe" ]} ]} ]}
    (with_identities [mkIdentity john_identity None] empty_project).

(** Three identities, of which [u9] cannot be deleted; pages hold two. *)
Definition three_identities : World :=
  with_protected ["u9"]
    (with_identities [mkIdentity (mkUserRecord "u9" None) None;
                      mkIdentity (mkUserRecord "u7" (Some "b@x.com")) None;
                      mkIdentity (mkUserRecord "u8" None) None]
                     john_exists).
End Samples.

(** ** More readers, generators and platforms *)

(** The references passed to [doc.reference.delete()], in call order. *)
Definition document_delete_attempts (t : list Event) : list DocumentReference :=
  omap (λ ev, match ev with DocumentDelete r _ => Some r | _ => None end) t.

(** Calls that reach the document store or fetch its client. *)
Definition is_store_call (ev : Event) : bool :=
  match ev with
  | FirestoreClientCall | DocumentSet _ _ _ | Stream _ | DocumentDelete _ _ => true
  | _ => false
  end.

Definition store_calls (t : list Event) : list Event :=
  List.filter is_store_call t.

(** Calls that list or delete identities. *)
Definition is_identity_call (ev : Event) : bool :=
  match ev with
  | ListUsers | GetNextPage | PageServed _ | DeleteUser _ _ => true
  | _ => false
  end.

Definition identity_calls (t : list Event) : list Event :=
  List.filter is_identity_call t.

(** A generator that yields the snapshots of a list, whatever the world. *)
Fixpoint stream_of_list {W : Type} (l : list DocumentSnapshot.t) : DocStream W :=
  mkDocStream (λ w,
    (Ok (match l with
         | [] => None
         | doc :: rest => Some (doc, stream_of_list rest)
         end), w)).

(** A chain of pages that serves the given pages, one after the other,
    whatever the world: [first], then each page of [rest], then [None]. *)
Fixpoint pages_of_list {W : Type} (first : list UserRecord)
    (rest : list (list UserRecord)) : ListUsersPage W :=
  mkListUsersPage first (λ w,
    (Ok (match rest with
         | [] => None
         | p :: ps => Some (pages_of_list p ps)
         end), w)).

(** The in-memory platform with an outage: [create_user] always raises
    PHONE_NUMBER_EXISTS when [create_down], and
    [generate_password_reset_link] raises when [reset_down]. *)
Module Outage.
Import InMemory.

Definition platform (create_down reset_down : bool) : Platform World := {|
  get_app := fake_get_app;
  Certificate := fake_certificate;
  initialize_app := λ _ w, (Ok (), with_app w);
  firestore_client := λ w, (Ok FirestoreClient, w);
  get_user_by_email := fake_get_user_by_email;
  create_user := λ kw w,
    if create_down then (Raise (other "PHONE_NUMBER_EXISTS"), w)
    else fake_create_user kw w;
  generate_password_reset_link := λ e w,
    if reset_down then (Raise (other "QUOTA_EXCEEDED"), w)
    else (Ok ("https://auth.example/reset?email=" +:+ e), w);
  document_set := fake_document_set;
  document_delete := fake_document_delete;
  collection_stream := fake_stream;
  list_users := fake_list_users;
  delete_user := fake_delete_user;
  open_json_load := fake_open_json_load;
  input := fake_input
|}.

End Outage.

Module MoreSamples.
Import InMemory.

(** A record with both names and a phone number the platform accepts. *)
Definition ann : UserData :=
  mkUserData "u3"
             [mkAttribute "email" "ann@x.com"; mkAttribute "email_verified" "true";
              mkAttribute "given_name" " Ann"; mkAttribute "family_name" "Lee ";
              mkAttribute "phone_number" "+15550100";
              mkAttribute "email" "other@x.com"]
             (VStr "2024-02-01T00:00:00Z") (VStr "2024-02-02T00:00:00Z")
             false "CONFIRMED".

Definition ann_identity : UserRecord := mkUserRecord "u3" (Some "ann@x.com").

(** A record without email and without names. *)
Definition nameless : UserData :=
  mkUserData "u4" [mkAttribute "sub" "s-4"]
             (VStr "2024-03-01T00:00:00Z") (VStr "2024-03-02T00:00:00Z")
             true "UNCONFIRMED".

End MoreSamples.

(** * Properties *)

(** ** The record extractor and the document mapper *)

Lemma eq_true_str_spec (o : option string) : eq_true_str o = true ↔ o = Some "true".
Proof.
  destruct o as [s|]; simpl.
  - rewrite String.eqb_eq. split; congruence.
  - split; discriminate.
Qed.

Lemma document_attributes (user_data : UserData) (user_record : UserRecord) :
  create_firestore_user_data user_data user_record !! "Attributes"
  = Some (DMap (firestore_attributes (Attributes user_data))).
Proof. reflexivity. Qed.

Lemma firestore_attributes_string (attributes : list Attribute) (k : string) :
  k ∈ string_attributes →
  firestore_attributes attributes !! k = Some (of_opt_str (get_attribute_value attributes k)).
Proof.
  unfold string_attributes. rewrite !elem_of_cons, elem_of_nil.
  intros [->|[->|[->|[->|[->|[]]]]]]; reflexivity.
Qed.

Lemma merge_document_attribute (stored : gmap string DocVal) (user_data : UserData)
    (user_record : UserRecord) (k : string) (v : PyVal) :
  firestore_attributes (Attributes user_data) !! k = Some v →
  attribute_of (merge_document stored
                  (create_firestore_user_data user_data user_record)) k = Some v.
Proof.
  intros Hk. unfold attribute_of, merge_document.
  rewrite lookup_union_with, document_attributes.
  destruct (stored !! "Attributes") as [[old|old]|]; simpl; try exact Hk.
  by apply lookup_union_Some_l.
Qed.

Lemma merge_shallow_attribute (stored : gmap string DocVal) (user_data : UserData)
    (user_record : UserRecord) (k : string) :
  attribute_of (merge_shallow stored
                  (create_firestore_user_data user_data user_record)) k
  = firestore_attributes (Attributes user_data) !! k.
Proof.
  unfold attribute_of, merge_shallow.
  by rewrite (lookup_union_Some_l _ _ _ _ (document_attributes user_data user_record)).
Qed.

(** C9. In the mapped document, [Attributes.email_verified] and
    [Attributes.phone_number_verified] are booleans that are [true] exactly
    when the source attribute is the string ["true"]; an absent attribute and
    any other string, such as ["TRUE"] or ["1"], give [false]. *)
Theorem document_verified_flags_exact (user_data : UserData) (user_record : UserRecord) :
  let attributes := Attributes user_data in
  let doc := create_firestore_user_data user_data user_record in
  ∃ ev pv : bool,
    attribute_of doc "email_verified" = Some (VBool ev)
    ∧ attribute_of doc "phone_number_verified" = Some (VBool pv)
    ∧ (ev = true ↔ get_attribute_value attributes "email_verified" = Some "true")
    ∧ (pv = true ↔ get_attribute_value attributes "phone_number_verified" = Some "true").
Proof.
  intros attributes doc.
  exists (eq_true_str (get_attribute_value attributes "email_verified")),
         (eq_true_str (get_attribute_value attributes "phone_number_verified")).
  split; [reflexivity|]. split; [reflexivity|].
  split; apply eq_true_str_spec.
Qed.

(** The coercion at the values the specification names. *)
Example verified_flag_values :
  eq_true_str (Some "true") = true ∧ eq_true_str (Some "TRUE") = false
  ∧ eq_true_str (Some "1") = false ∧ eq_true_str None = false.
Proof. repeat split. Qed.

(** The identity-creation request, field by field. *)
Lemma request_email_verified (user_data : UserData) (email_v : string) :
  request_of user_data email_v !! "email_verified"
  = Some (VBool (bool_decide
       (PyStr.lower <$> get_attribute_value (Attributes user_data) "email_verified"
        = Some "true"))).
Proof.
  unfold request_of, build_user_kwargs.
  set (lit := user_kwargs_literal _ _ _ _ _).
  set (b := bool_decide _).
  assert (Hlit : lit !! "email_verified" = Some (VBool b)).
  { subst lit b. unfold user_kwargs_literal.
    destruct (get_attribute_value (Attributes user_data) "email_verified") as [ev|];
      simpl; [|reflexivity].
    change (Some (VBool (if PyStr.truthy ev then String.eqb (PyStr.lower ev) "true"
                         else false))
            = Some (VBool (bool_decide (Some (PyStr.lower ev) = Some "true")))).
    do 2 f_equal. destruct ev as [|c ev]; [reflexivity|]. simpl PyStr.truthy.
    symmetry. destruct (String.eqb_spec (PyStr.lower (String c ev)) "true") as [E|E].
    - apply bool_decide_eq_true. by rewrite E.
    - apply bool_decide_eq_false. congruence. }
  apply map_lookup_filter_Some. split; [|done].
  destruct (get_attribute_value (Attributes user_data) "phone_number") as [p|];
    [destruct (PyStr.truthy p)|]; exact Hlit.
Qed.

Lemma request_display_name (user_data : UserData) (email_v : string) :
  let given_name := get_attribute_value (Attributes user_data) "given_name" in
  let family_name := get_attribute_value (Attributes user_data) "family_name" in
  request_of user_data email_v !! "display_name"
  = if PyStr.truthy_opt given_name || PyStr.truthy_opt family_name
    then Some (VStr (PyStr.strip (PyStr.format_opt given_name +:+ " "
                                  +:+ PyStr.format_opt family_name)))
    else None.
Proof.
  intros given_name family_name. unfold request_of, build_user_kwargs.
  fold given_name family_name.
  set (lit := user_kwargs_literal _ _ _ _ _).
  set (with_phone := match get_attribute_value _ "phone_number" with
                     | Some p => _ | None => _ end).
  assert (Hlit : with_phone !! "display_name"
                 = Some (if PyStr.truthy_opt given_name || PyStr.truthy_opt family_name
                         then VStr (PyStr.strip (PyStr.format_opt given_name +:+ " "
                                                 +:+ PyStr.format_opt family_name))
                         else VNone)).
  { subst with_phone lit.
    destruct (get_attribute_value (Attributes user_data) "phone_number") as [p|];
      [destruct (PyStr.truthy p)|]; reflexivity. }
  destruct (PyStr.truthy_opt given_name || PyStr.truthy_opt family_name).
  - apply map_lookup_filter_Some. by split.
  - apply map_lookup_filter_None. right. intros v Hv.
    rewrite Hlit in Hv. injection Hv as <-. simpl. by intros [].
Qed.

Lemma request_without_phone_email_verified (user_data : UserData) (email_v : string) :
  delete "phone_number" (request_of user_data email_v) !! "email_verified"
  = request_of user_data email_v !! "email_verified".
Proof. by rewrite lookup_delete_ne. Qed.

(** ** The migration worker *)

Arguments create_firestore_user_data : simpl never.
Arguments build_user_kwargs : simpl never.
Arguments request_of : simpl never.
Arguments String.append : simpl never.
Arguments PyStr.format_nat : simpl never.

Section Worker.
Context {W : Type} `{Platform W}.

Ltac unfold_worker :=
  unfold migrate_user, migrate_user_try, lookup_or_create, try_except_class,
    try_except, bind, call, call_with, logging_info, logging_warning,
    logging_error, emit, ret, raise, result_of, trace_of, world_of in *.

(** Case analysis on the outcome of the next platform call in the goal. *)
Ltac next_call :=
  match goal with
  | |- context [match ?c with _ => _ end] =>
      lazymatch type of c with
      | (Res _ * _)%type => destruct c as [[?|?] ?] eqn:?; simpl
      end
  end.

Lemma truthy_email (user_data : UserData) (email_v : string) :
  get_attribute_value (Attributes user_data) "email" = Some email_v →
  email_v ≠ "" →
  PyStr.truthy_opt (get_attribute_value (Attributes user_data) "email") = true
  ∧ default "" (get_attribute_value (Attributes user_data) "email") = email_v.
Proof. intros -> Hne. split; [|done]. by destruct email_v. Qed.

Lemma migrate_user_with_email (user_data : UserData) (db : Client) (email_v : string) :
  get_attribute_value (Attributes user_data) "email" = Some email_v →
  email_v ≠ "" →
  migrate_user user_data db
  = try_except
      (migrate_user_try user_data db email_v
         (get_attribute_value (Attributes user_data) "email_verified")
         (get_attribute_value (Attributes user_data) "phone_number")
         (get_attribute_value (Attributes user_data) "given_name")
         (get_attribute_value (Attributes user_data) "family_name"))
      (λ e, bind (logging_error ("Error migrating user " +:+ email_v +:+ ": "
                                 +:+ exn_str e))
                 (λ _, ret None)).
Proof.
  intros Hemail Hne. destruct (truthy_email _ _ Hemail Hne) as [Ht Hd].
  unfold migrate_user. by rewrite Ht, Hd.
Qed.

Lemma migrate_user_without_email (user_data : UserData) (db : Client) (w : W) :
  PyStr.truthy_opt (get_attribute_value (Attributes user_data) "email") = false →
  migrate_user user_data db w
  = (Ok None, w, [Log WARNING "Skipping user: No email found"]).
Proof. intros Hemail. unfold migrate_user. by rewrite Hemail. Qed.

(** C7. A record whose email attribute is absent or empty is skipped: the
    worker logs one warning and returns [None]; its trace holds no call to
    the identity platform or to the document store, and the world is left
    as it was. *)
Theorem migrate_user_skips_missing_email (user_data : UserData) (db : Client) (w : W) :
  get_attribute_value (Attributes user_data) "email" = None
  ∨ get_attribute_value (Attributes user_data) "email" = Some "" →
  migrate_user user_data db w
  = (Ok None, w, [Log WARNING "Skipping user: No email found"])
  ∧ platform_calls (trace_of (migrate_user user_data db w)) = [].
Proof.
  intros Hemail. unfold migrate_user.
  destruct Hemail as [-> | ->]; split; reflexivity.
Qed.

(** C4. [migrate_user] always returns to its caller and never raises; when
    its [try] block raises, from the identity lookup or creation, the
    reset-link generation or the document write, the exception is logged as
    an error with the email and the worker returns [None]. *)
Theorem migrate_user_never_raises (user_data : UserData) (db : Client) (w : W) :
  let attributes := Attributes user_data in
  let run := migrate_user user_data db w in
  (∃ returned : option UserRecord, result_of run = Ok returned)
  ∧ ∀ (email_v : string) (e : Exn) (w1 : W) (t1 : list Event),
      get_attribute_value attributes "email" = Some email_v →
      email_v ≠ "" →
      migrate_user_try user_data db email_v
        (get_attribute_value attributes "email_verified")
        (get_attribute_value attributes "phone_number")
        (get_attribute_value attributes "given_name")
        (get_attribute_value attributes "family_name") w = (Raise e, w1, t1) →
      run = (Ok None, w1,
             t1 ++ [Log ERROR ("Error migrating user " +:+ email_v +:+ ": "
                               +:+ exn_str e)]).
Proof.
  intros attributes run. split.
  - subst run. unfold migrate_user, result_of.
    destruct (negb _); [by eexists|].
    unfold try_except.
    destruct (migrate_user_try _ _ _ _ _ _ _ w) as [[[r|e] w1] t1]; by eexists.
  - intros email_v e w1 t1 Hemail Hne Hraise. subst run attributes.
    rewrite (migrate_user_with_email _ _ _ Hemail Hne).
    unfold try_except. by rewrite Hraise.
Qed.

(** Which platform call of the [try] block raised. *)
Lemma migrate_user_try_write_raises (user_data : UserData) (db : Client)
    (email_v : string) (ev pn gn fn : option string) (w w1 w2 : W)
    (u : UserRecord) (e : Exn) :
  get_user_by_email email_v w = (Ok u, w1) →
  document_set (document (collection db "users") (uid u))
               (create_firestore_user_data user_data u) true w1 = (Raise e, w2) →
  result_of (migrate_user_try user_data db email_v ev pn gn fn w) = Raise e.
Proof. intros Hget Hset. unfold_worker. by rewrite Hget; simpl; rewrite Hset. Qed.

Lemma migrate_user_try_lookup_raises (user_data : UserData) (db : Client)
    (email_v : string) (ev pn gn fn : option string) (w w1 : W) (e : Exn) :
  get_user_by_email email_v w = (Raise e, w1) →
  exn_class e ≠ UserNotFoundError →
  migrate_user_try user_data db email_v ev pn gn fn w
  = (Raise e, w1, [GetUserByEmail email_v]).
Proof.
  intros Hget Hcls. unfold_worker. rewrite Hget; simpl.
  by destruct (exn_class e).
Qed.

(** Case analysis on every platform call and every handler test of a run. *)
Ltac split_calls :=
  unfold_worker;
  repeat match goal with
         | |- context [match exn_class ?e with _ => _ end] =>
             destruct (exn_class e) eqn:?; simpl
         | |- context [if phone_number_issue ?e then _ else _] =>
             destruct (phone_number_issue e) eqn:?; simpl
         | _ => next_call
         end.

(** Every run of the worker sends no creation request, one, or two, the
    second being the first without its phone number. *)
Lemma migrate_user_requests (user_data : UserData) (db : Client) (w : W)
    (email_v : string) :
  get_attribute_value (Attributes user_data) "email" = Some email_v →
  email_v ≠ "" →
  let kw := request_of user_data email_v in
  let sent := created_requests (trace_of (migrate_user user_data db w)) in
  sent = [] ∨ sent = [kw] ∨ sent = [kw; delete "phone_number" kw].
Proof.
  intros Hemail Hne. simpl.
  rewrite (migrate_user_with_email _ _ _ Hemail Hne).
  unfold migrate_user_try. fold (request_of user_data email_v).
  generalize (request_of user_data email_v). intros kw.
  split_calls; auto.
Qed.

(** Every run of the worker writes at most one document: the mapped
    document of the record, under the uid of its identity, with
    [merge=True]. *)
Lemma migrate_user_writes (user_data : UserData) (db : Client) (w : W) :
  let written := document_writes (trace_of (migrate_user user_data db w)) in
  written = []
  ∨ ∃ u : UserRecord,
      written = [(document (collection db "users") (uid u),
                  create_firestore_user_data user_data u, true)].
Proof.
  simpl. destruct (get_attribute_value (Attributes user_data) "email")
    as [email_v|] eqn:Hemail; [destruct (decide (email_v = "")) as [->|Hne]|].
  - left. unfold migrate_user. by rewrite Hemail.
  - rewrite (migrate_user_with_email _ _ _ Hemail Hne).
    unfold migrate_user_try. fold (request_of user_data email_v).
    generalize (request_of user_data email_v). intros kw.
    split_calls; eauto.
  - left. unfold migrate_user. by rewrite Hemail.
Qed.

(** C5. When the lookup by email finds an identity, the worker reuses it:
    its only platform calls are the lookup and one [set] of the mapped
    document with [merge=True] under the uid of the found identity, so no
    create-identity and no reset-link call is made, and once that write
    returns the worker returns the found identity. *)
Theorem migrate_user_reuses_existing_identity (user_data : UserData) (db : Client)
    (w w1 : W) (email_v : string) (found : UserRecord) :
  get_attribute_value (Attributes user_data) "email" = Some email_v →
  email_v ≠ "" →
  get_user_by_email email_v w = (Ok found, w1) →
  let ref := document (collection db "users") (uid found) in
  let data := create_firestore_user_data user_data found in
  let run := migrate_user user_data db w in
  platform_calls (trace_of run) = [GetUserByEmail email_v; DocumentSet ref data true]
  ∧ created_requests (trace_of run) = []
  ∧ reset_link_requests (trace_of run) = []
  ∧ document_writes (trace_of run) = [(ref, data, true)]
  ∧ ∀ w2, document_set ref data true w1 = (Ok (), w2) →
          result_of run = Ok (Some found) ∧ world_of run = w2.
Proof.
  intros Hemail Hne Hget. simpl.
  rewrite (migrate_user_with_email _ _ _ Hemail Hne).
  unfold migrate_user_try. generalize (build_user_kwargs user_data email_v
    (get_attribute_value (Attributes user_data) "email_verified")
    (get_attribute_value (Attributes user_data) "phone_number")
    (get_attribute_value (Attributes user_data) "given_name")
    (get_attribute_value (Attributes user_data) "family_name")). intros kw.
  unfold_worker. rewrite Hget. simpl.
  destruct (document_set _ _ true w1) as [[[]|e] w2] eqn:Hset; simpl;
    do 4 (split; [reflexivity|]); intros w3 [= <-]; done.
Qed.

(** C6. When the lookup by email raises [UserNotFoundError], the worker
    calls create-identity once with the request built from the record.
    If that call raises with ["INVALID_PHONE_NUMBER"] or
    ["PHONE_NUMBER_EXISTS"] in its message, it calls create-identity a
    second and last time with the [phone_number] field removed. If the
    first call raises anything else, nothing is retried: the exception
    reaches the handler of the worker, which logs it and returns [None]. *)
Theorem migrate_user_creates_once_or_twice (user_data : UserData) (db : Client)
    (w w1 : W) (email_v : string) (not_found : Exn) :
  get_attribute_value (Attributes user_data) "email" = Some email_v →
  email_v ≠ "" →
  get_user_by_email email_v w = (Raise not_found, w1) →
  exn_class not_found = UserNotFoundError →
  let kw := request_of user_data email_v in
  let run := migrate_user user_data db w in
  match create_user kw w1 with
  | (Ok _, _) => created_requests (trace_of run) = [kw]
  | (Raise e, w2) =>
      if phone_number_issue e
      then created_requests (trace_of run) = [kw; delete "phone_number" kw]
      else run = (Ok None, w2,
                  [GetUserByEmail email_v; CreateUser kw;
                   Log ERROR ("Error migrating user " +:+ email_v +:+ ": "
                              +:+ exn_str e)])
  end.
Proof.
  intros Hemail Hne Hget Hcls. simpl.
  rewrite (migrate_user_with_email _ _ _ Hemail Hne).
  unfold migrate_user_try. fold (request_of user_data email_v).
  generalize (request_of user_data email_v). intros kw.
  unfold_worker. rewrite Hget. simpl. rewrite Hcls.
  destruct (create_user kw w1) as [[created|e] w2] eqn:Hcreate; simpl.
  - repeat next_call; reflexivity.
  - destruct (phone_number_issue e) eqn:Hphone; simpl;
      repeat next_call; reflexivity.
Qed.

(** C2, as the code has it. For every record with an email, every
    identity-creation request the worker sends carries an [email_verified]
    field that is [true] exactly when the lower-cased [email_verified]
    attribute is ["true"] (so ["true"], ["TRUE"] and ["True"] give [true]),
    and [false] for any other value or an absent attribute. *)
Theorem request_email_verified_ignores_case (user_data : UserData) (db : Client)
    (w : W) (email_v : string) :
  get_attribute_value (Attributes user_data) "email" = Some email_v →
  email_v ≠ "" →
  let flag := bool_decide
    (PyStr.lower <$> get_attribute_value (Attributes user_data) "email_verified"
     = Some "true") in
  request_of user_data email_v !! "email_verified" = Some (VBool flag)
  ∧ Forall (λ kw : gmap string PyVal, kw !! "email_verified" = Some (VBool flag))
           (created_requests (trace_of (migrate_user user_data db w))).
Proof.
  intros Hemail Hne flag.
  pose proof (request_email_verified user_data email_v) as Hkw.
  split; [exact Hkw|].
  destruct (migrate_user_requests user_data db w email_v Hemail Hne)
    as [-> | [-> | ->]]; repeat constructor; try exact Hkw.
  by rewrite request_without_phone_email_verified.
Qed.

End Worker.

(** ** Reading traces piece by piece *)

Lemma delete_attempts_app (t1 t2 : list Event) :
  delete_attempts (t1 ++ t2) = delete_attempts t1 ++ delete_attempts t2.
Proof. apply omap_app. Qed.

Lemma listed_identities_app (t1 t2 : list Event) :
  listed_identities (t1 ++ t2) = listed_identities t1 ++ listed_identities t2.
Proof. unfold listed_identities. by rewrite omap_app, join_app. Qed.

Lemma count_deleted_users_app (ok : bool) (t1 t2 : list Event) :
  count_deleted_users ok (t1 ++ t2)
  = count_deleted_users ok t1 + count_deleted_users ok t2.
Proof. unfold count_deleted_users. by rewrite List.filter_app, length_app. Qed.

Lemma count_deleted_docs_app (ok : bool) (t1 t2 : list Event) :
  count_deleted_docs ok (t1 ++ t2)
  = count_deleted_docs ok t1 + count_deleted_docs ok t2.
Proof. unfold count_deleted_docs. by rewrite List.filter_app, length_app. Qed.

Lemma count_auth_failure_logs_app (t1 t2 : list Event) :
  count_auth_failure_logs (t1 ++ t2)
  = count_auth_failure_logs t1 + count_auth_failure_logs t2.
Proof. unfold count_auth_failure_logs. by rewrite List.filter_app, length_app. Qed.

Create Rewrite HintDb trace.
#[local] Hint Rewrite delete_attempts_app listed_identities_app
  count_deleted_users_app count_deleted_docs_app count_auth_failure_logs_app
  : trace.

(** A trace of events silent about identity deletion contributes nothing to
    the identity readings. *)
Lemma auth_silent_readings (t : list Event) :
  Forall (λ ev, auth_silent ev = true) t →
  delete_attempts t = [] ∧ listed_identities t = []
  ∧ count_auth_failure_logs t = 0
  ∧ ∀ ok, count_deleted_users ok t = 0.
Proof.
  induction 1 as [|ev t Hev _ (IH1 & IH2 & IH3 & IH4)]; [done|].
  change (ev :: t) with ([ev] ++ t). autorewrite with trace.
  rewrite IH1, IH2, IH3.
  assert (Hlog : count_auth_failure_logs [ev] = 0).
  { unfold count_auth_failure_logs; simpl. unfold auth_silent in Hev.
    destruct ev; try discriminate; try reflexivity.
    by destruct (is_auth_failure_log _). }
  rewrite Hlog.
  repeat split; try rewrite IH4; by destruct ev.
Qed.

Lemma store_silent_readings (t : list Event) :
  Forall (λ ev, store_silent ev = true) t → ∀ ok, count_deleted_docs ok t = 0.
Proof.
  induction 1 as [|ev t Hev _ IH]; [done|]. intros ok.
  change (ev :: t) with ([ev] ++ t). rewrite count_deleted_docs_app, IH.
  by destruct ev.
Qed.

(** Every deletion call either returned or raised. *)
Lemma count_deleted_users_total (t : list Event) :
  count_deleted_users true t + count_deleted_users false t
  = length (delete_attempts t).
Proof.
  induction t as [|ev t IH]; [done|].
  change (ev :: t) with ([ev] ++ t). autorewrite with trace.
  rewrite length_app, <- IH.
  destruct ev as [| | | | | | | | | | | | | | | |u [|]|]; cbn; lia.
Qed.

Lemma prefix_append (p s : string) : String.prefix p (p +:+ s) = true.
Proof.
  induction p as [|a p IH]; simpl; [by destruct s|].
  by destruct (Ascii.ascii_dec a a).
Qed.

Lemma delete_attempts_cons (ev : Event) (t : list Event) :
  delete_attempts (ev :: t)
  = match ev with DeleteUser u _ => [u] | _ => [] end ++ delete_attempts t.
Proof. by destruct ev. Qed.

Lemma listed_identities_cons (ev : Event) (t : list Event) :
  listed_identities (ev :: t)
  = match ev with PageServed us => us | _ => [] end ++ listed_identities t.
Proof. by destruct ev. Qed.

Lemma count_deleted_users_cons (ok : bool) (ev : Event) (t : list Event) :
  count_deleted_users ok (ev :: t)
  = (if is_delete_user ok ev then 1 else 0) + count_deleted_users ok t.
Proof. unfold count_deleted_users. simpl. by destruct (is_delete_user ok ev). Qed.

Lemma count_deleted_docs_cons (ok : bool) (ev : Event) (t : list Event) :
  count_deleted_docs ok (ev :: t)
  = (if is_document_delete ok ev then 1 else 0) + count_deleted_docs ok t.
Proof. unfold count_deleted_docs. simpl. by destruct (is_document_delete ok ev). Qed.

Lemma count_auth_failure_logs_cons (ev : Event) (t : list Event) :
  count_auth_failure_logs (ev :: t)
  = (if is_auth_failure_log ev then 1 else 0) + count_auth_failure_logs t.
Proof.
  unfold count_auth_failure_logs. simpl. by destruct (is_auth_failure_log ev).
Qed.

Lemma delete_attempts_nil : delete_attempts [] = [].
Proof. reflexivity. Qed.
Lemma listed_identities_nil : listed_identities [] = [].
Proof. reflexivity. Qed.
Lemma count_deleted_users_nil (ok : bool) : count_deleted_users ok [] = 0.
Proof. reflexivity. Qed.
Lemma count_deleted_docs_nil (ok : bool) : count_deleted_docs ok [] = 0.
Proof. reflexivity. Qed.
Lemma count_auth_failure_logs_nil : count_auth_failure_logs [] = 0.
Proof. reflexivity. Qed.

#[local] Hint Rewrite delete_attempts_cons listed_identities_cons
  count_deleted_users_cons count_deleted_docs_cons count_auth_failure_logs_cons
  delete_attempts_nil listed_identities_nil count_deleted_users_nil
  count_deleted_docs_nil count_auth_failure_logs_nil : trace.

(** ** The bulk deleters *)

Arguments delete_attempts : simpl never.
Arguments listed_identities : simpl never.
Arguments count_deleted_users : simpl never.
Arguments count_deleted_docs : simpl never.
Arguments count_auth_failure_logs : simpl never.

Section Deleters.
Context {W : Type} `{Platform W}.

(** Induction along a chain of pages: the property holds for a page when it
    holds for the page that [get_next_page] returns, in whatever world. *)
Lemma ListUsersPage_chain_ind (P : ListUsersPage W → Prop) :
  (∀ us next,
      (∀ w, match next w with (Ok (Some p), _) => P p | _ => True end) →
      P (mkListUsersPage us next)) →
  ∀ page, P page.
Proof.
  intros step. fix IH 1. intros [us next]. apply step. intros w.
  destruct (next w) as [[[p|]|e] w1]; [apply IH | exact I | exact I].
Qed.

(** Induction along a document generator. *)
Lemma DocStream_chain_ind (P : DocStream W → Prop) :
  (∀ next,
      (∀ w, match next w with (Ok (Some (_, rest)), _) => P rest | _ => True end) →
      P (mkDocStream next)) →
  ∀ docs, P docs.
Proof.
  intros step. fix IH 1. intros [next]. apply step. intros w.
  destruct (next w) as [[[[doc rest]|]|e] w1]; [apply IH | exact I | exact I].
Qed.

Ltac unfold_run :=
  unfold try_except_class, try_except, bind, call, call_with, call_then,
    logging_info, logging_warning, logging_error, emit, ret, raise,
    result_of, trace_of, world_of in *.

Ltac silent :=
  repeat first [ assumption | apply Forall_nil_2
               | apply Forall_cons_2; [reflexivity|] | apply Forall_app_2 ].

Ltac read_trace := autorewrite with trace; cbn.

Lemma ensure_app_silent (w : W) :
  Forall (λ ev, auth_silent ev = true) (trace_of (ensure_app w))
  ∧ Forall (λ ev, store_silent ev = true) (trace_of (ensure_app w)).
Proof.
  unfold ensure_app. unfold_run.
  destruct (get_app w) as [[[]|e] w1]; simpl; [split; silent|].
  destruct (exn_class e); simpl; [split; silent| |split; silent].
  destruct (Certificate _ w1) as [[cred|e1] w2]; simpl; [|split; silent].
  destruct (initialize_app cred w2) as [[[]|e2] w3]; simpl; split; silent.
Qed.

Lemma run_eq {A} (r1 r2 : Res A) (w : W) (t : list Event) :
  r1 = r2 → (r1, w, t) = (r2, w, t).
Proof. by intros ->. Qed.

(** One document: the call is made, and counted as deleted or failed. *)
Lemma delete_one_doc_spec (doc : DocumentSnapshot.t) (d f : nat) (w : W) :
  ∃ w1 t,
    delete_one_doc doc d f w
    = (Ok (d + count_deleted_docs true t, f + count_deleted_docs false t), w1, t)
    ∧ Forall (λ ev, auth_silent ev = true) t.
Proof.
  unfold delete_one_doc. unfold_run.
  destruct (document_delete _ w) as [[[]|e] w1]; simpl; do 2 eexists;
    (split; [apply run_eq; read_trace; do 2 f_equal; lia|silent]).
Qed.

Lemma delete_docs_spec (docs : DocStream W) :
  ∀ (d f : nat) (w : W),
  ∃ r w1 t,
    delete_docs docs d f w = (r, w1, t)
    ∧ Forall (λ ev, auth_silent ev = true) t
    ∧ ∀ d1 f1, r = Ok (d1, f1) →
        d1 = d + count_deleted_docs true t ∧ f1 = f + count_deleted_docs false t.
Proof.
  induction docs as [next IH] using DocStream_chain_ind. intros d f w. simpl.
  unfold call_then. specialize (IH w).
  destruct (next w) as [[[[doc rest]|]|e] w1]; simpl.
  - destruct (delete_one_doc_spec doc d f w1) as (w2 & t2 & Hone & Hsilent).
    unfold bind. rewrite Hone. simpl.
    destruct (IH (d + count_deleted_docs true t2)
                 (f + count_deleted_docs false t2) w2)
      as (r & w3 & t3 & -> & IHs & IHc).
    eexists _, _, _. split; [reflexivity|]. split; [by apply Forall_app|].
    intros d1 f1 Hr. destruct (IHc d1 f1 Hr) as [-> ->].
    read_trace. lia.
  - eexists _, _, _. split; [reflexivity|]. split; [constructor|].
    intros d1 f1 [= <- <-]. read_trace. lia.
  - eexists _, _, _. split; [reflexivity|]. split; [constructor|]. discriminate.
Qed.

Lemma delete_firestore_users_spec (w : W) :
  ∃ r w1 t,
    delete_firestore_users w = (r, w1, t)
    ∧ Forall (λ ev, auth_silent ev = true) t
    ∧ ∀ d f, r = Ok (d, f) →
        d = count_deleted_docs true t ∧ f = count_deleted_docs false t.
Proof.
  unfold delete_firestore_users.
  destruct (ensure_app_silent w) as [Ha Hs].
  pose proof (store_silent_readings _ Hs) as Hs0.
  unfold_run. destruct (ensure_app w) as [[[[]|e] w1] t1]; simpl in *.
  2: { eexists _, _, _. split; [reflexivity|]. split; [silent|discriminate]. }
  destruct (firestore_client w1) as [[db|e] w2]; simpl.
  2: { eexists _, _, _. split; [reflexivity|]. split; [silent|discriminate]. }
  destruct (delete_docs_spec (collection_stream (collection db "users")) 0 0 w2)
    as (r & w3 & t3 & -> & Hd & Hc).
  destruct r as [[d1 f1]|e]; simpl.
  - eexists _, _, _. split; [reflexivity|]. split; [silent|].
    intros d f [= <- <-]. destruct (Hc d1 f1 eq_refl) as [-> ->].
    read_trace. rewrite !Hs0. lia.
  - eexists _, _, _. split; [reflexivity|]. split; [silent|discriminate].
Qed.

(** One identity: the deletion is attempted once, counted as deleted or
    failed, and a failure is logged; the iteration itself never raises. *)
Lemma delete_one_user_spec (user : UserRecord) (d f : nat) (w : W) :
  ∃ w1 t,
    delete_one_user user d f w
    = (Ok (d + count_deleted_users true t, f + count_deleted_users false t), w1, t)
    ∧ Forall (λ ev, store_silent ev = true) t
    ∧ delete_attempts t = [uid user]
    ∧ listed_identities t = []
    ∧ count_auth_failure_logs t = count_deleted_users false t.
Proof.
  unfold delete_one_user. unfold_run.
  destruct (delete_user (uid user) w) as [[[]|e] w1]; simpl; do 2 eexists;
    (split; [apply run_eq; read_trace; do 2 f_equal; lia|]);
    (split; [silent|]); read_trace; rewrite ?prefix_append; done.
Qed.

Lemma delete_page_users_spec (us : list UserRecord) :
  ∀ (d f : nat) (w : W),
  ∃ w1 t,
    delete_page_users us d f w
    = (Ok (d + count_deleted_users true t, f + count_deleted_users false t), w1, t)
    ∧ Forall (λ ev, store_silent ev = true) t
    ∧ delete_attempts t = uid <$> us
    ∧ listed_identities t = []
    ∧ count_auth_failure_logs t = count_deleted_users false t.
Proof.
  induction us as [|user rest IH]; intros d f w; simpl.
  - exists w, []. split; [unfold ret; apply run_eq; read_trace; do 2 f_equal; lia|].
    by split; [constructor|].
  - destruct (delete_one_user_spec user d f w)
      as (w1 & t1 & Hone & Hs1 & Ha1 & Hl1 & Hf1).
    unfold bind. rewrite Hone. simpl.
    destruct (IH (d + count_deleted_users true t1)
                 (f + count_deleted_users false t1) w1)
      as (w2 & t2 & -> & Hs2 & Ha2 & Hl2 & Hf2).
    exists w2, (t1 ++ t2).
    split; [apply run_eq; read_trace; do 2 f_equal; lia|].
    split; [silent|]. read_trace. rewrite Ha1, Ha2, Hl1, Hl2, Hf1, Hf2. done.
Qed.

Lemma delete_pages_spec (page : ListUsersPage W) :
  ∀ (d f : nat) (w : W),
  ∃ r w1 t,
    delete_pages page d f w = (r, w1, t)
    ∧ Forall (λ ev, store_silent ev = true) t
    ∧ delete_attempts t = uid <$> (users page ++ listed_identities t)
    ∧ count_auth_failure_logs t = count_deleted_users false t
    ∧ ∀ d1 f1, r = Ok (d1, f1) →
        d1 = d + count_deleted_users true t ∧ f1 = f + count_deleted_users false t.
Proof.
  induction page as [us next IH] using ListUsersPage_chain_ind.
  intros d f w. simpl.
  destruct (delete_page_users_spec us d f w)
    as (w1 & t1 & Hus & Hs1 & Ha1 & Hl1 & Hf1).
  unfold bind. rewrite Hus. simpl. unfold call_then. specialize (IH w1).
  destruct (next w1) as [[[p|]|e] w2]; simpl.
  - destruct (IH (d + count_deleted_users true t1)
                 (f + count_deleted_users false t1) w2)
      as (r & w3 & t3 & -> & Hs3 & Ha3 & Hf3 & Hc3).
    eexists _, _, _. split; [reflexivity|]. split; [silent|].
    read_trace. rewrite Ha1, Ha3, Hl1, Hf1, Hf3.
    split; [by rewrite !fmap_app|]. split; [done|].
    intros d1 f1 Hr. destruct (Hc3 d1 f1 Hr) as [-> ->]. lia.
  - eexists _, _, _. split; [reflexivity|]. split; [silent|].
    read_trace. rewrite Ha1, Hl1, Hf1, !app_nil_r.
    split; [done|]. split; [lia|]. unfold ret.
    intros d1 f1 [= <- <-]. lia.
  - eexists _, _, _. split; [reflexivity|]. split; [silent|].
    read_trace. rewrite Ha1, Hl1, Hf1, !app_nil_r.
    split; [done|]. split; [lia|]. discriminate.
Qed.

Lemma cascade_to_store_spec (delete_firestore : bool) (w : W) :
  ∃ r w1 t,
    cascade_to_store delete_firestore w = (r, w1, t)
    ∧ Forall (λ ev, auth_silent ev = true) t
    ∧ (r = Ok () → delete_firestore = true →
       Log INFO ("Firestore deletion: Deleted "
                 +:+ PyStr.format_nat (count_deleted_docs true t)
                 +:+ ", Failed "
                 +:+ PyStr.format_nat (count_deleted_docs false t)) ∈ t).
Proof.
  unfold cascade_to_store. destruct delete_firestore.
  - unfold_run.
    destruct (delete_firestore_users_spec w) as (r & w3 & t3 & -> & Hq & Hc).
    destruct r as [[x y]|e]; simpl.
    + eexists _, _, _. split; [reflexivity|]. split; [silent|].
      intros _ _. destruct (Hc x y eq_refl) as [-> ->]. read_trace.
      rewrite !Nat.add_0_r. apply elem_of_app. right. apply list_elem_of_singleton.
      reflexivity.
    + eexists _, _, _. split; [reflexivity|]. split; [done|discriminate].
  - eexists _, _, _. split; [reflexivity|]. split; [constructor|discriminate].
Qed.

(** The trace of a whole [delete_auth_users] run, read for deletions. *)
Lemma delete_auth_users_spec (delete_firestore : bool) (w : W) :
  ∃ r w1 t,
    delete_auth_users delete_firestore w = (r, w1, t)
    ∧ delete_attempts t = uid <$> listed_identities t
    ∧ count_auth_failure_logs t = count_deleted_users false t
    ∧ ∀ d f, r = Ok (d, f) →
        d = count_deleted_users true t
        ∧ f = count_deleted_users false t
        ∧ (delete_firestore = true →
           Log INFO ("Firestore deletion: Deleted "
                     +:+ PyStr.format_nat (count_deleted_docs true t)
                     +:+ ", Failed "
                     +:+ PyStr.format_nat (count_deleted_docs false t)) ∈ t).
Proof.
  unfold delete_auth_users.
  destruct (ensure_app_silent w) as [Ha Hs].
  destruct (auth_silent_readings _ Ha) as (Ha1 & Ha2 & Ha3 & Ha4).
  pose proof (store_silent_readings _ Hs) as Hs0.
  unfold_run. destruct (ensure_app w) as [[[[]|e] w1] t1]; simpl in *.
  2: { eexists _, _, _. split; [reflexivity|]. read_trace.
       rewrite Ha1, Ha2, Ha3, !Ha4. repeat split; try done. }
  destruct (cascade_to_store_spec delete_firestore w1)
    as (r2 & w2 & t2 & -> & Hq & Hlog).
  destruct (auth_silent_readings _ Hq) as (Hq1 & Hq2 & Hq3 & Hq4).
  destruct r2 as [[]|e]; simpl.
  2: { eexists _, _, _. split; [reflexivity|]. read_trace.
       rewrite Ha1, Ha2, Ha3, !Ha4, Hq1, Hq2, Hq3, !Hq4. repeat split; try done. }
  destruct (list_users w2) as [[page|e] w3]; simpl.
  2: { eexists _, _, _. split; [reflexivity|]. read_trace.
       rewrite Ha1, Ha2, Ha3, !Ha4, Hq1, Hq2, Hq3, !Hq4. repeat split; try done. }
  destruct (delete_pages_spec page 0 0 w3) as (r & w4 & t4 & -> & Hp1 & Hp2 & Hp3 & Hp4).
  pose proof (store_silent_readings _ Hp1) as Hp0.
  destruct r as [[d1 f1]|e]; simpl.
  - eexists _, _, _. split; [reflexivity|]. read_trace.
    rewrite Ha1, Ha2, Ha3, !Ha4, Hq1, Hq2, Hq3, !Hq4, Hp2, Hp3, !app_nil_r.
    split; [done|]. split; [reflexivity|].
    intros d f [= <- <-]. destruct (Hp4 d1 f1 eq_refl) as [-> ->].
    split; [lia|]. split; [lia|]. intros Hflag.
    rewrite !Hs0, !Hp0, !Nat.add_0_r. simpl.
    apply elem_of_app. right. apply elem_of_app. left. by apply Hlog.
  - eexists _, _, _. split; [reflexivity|]. read_trace.
    rewrite Ha1, Ha2, Ha3, !Ha4, Hq1, Hq2, Hq3, !Hq4, Hp2, Hp3, !app_nil_r.
    split; [done|]. split; [reflexivity|]. discriminate.
Qed.

(** In every run of [delete_auth_users], also one that a failing
    [get_next_page] cuts short, the deletion calls are exactly the identities
    of the pages received so far, each once and in order, and the returned
    pair counts the [auth.delete_user] calls that returned and those that
    raised. *)
Lemma delete_auth_users_trace_readings (delete_firestore : bool) (w : W) :
  let run := delete_auth_users delete_firestore w in
  let t := trace_of run in
  delete_attempts t = uid <$> listed_identities t
  ∧ count_auth_failure_logs t = count_deleted_users false t
  ∧ (∀ (us : list UserRecord) (d f : nat) (w1 : W),
        ∃ t1, trace_of (delete_page_users us d f w1) = t1
              ∧ result_of (delete_page_users us d f w1)
                = Ok (d + count_deleted_users true t1,
                      f + count_deleted_users false t1)
              ∧ delete_attempts t1 = uid <$> us)
  ∧ ∀ deleted failed : nat,
      result_of run = Ok (deleted, failed) →
      deleted = count_deleted_users true t
      ∧ failed = count_deleted_users false t
      ∧ deleted + failed = length (listed_identities t)
      ∧ (delete_firestore = true →
         Log INFO ("Firestore deletion: Deleted "
                   +:+ PyStr.format_nat (count_deleted_docs true t)
                   +:+ ", Failed "
                   +:+ PyStr.format_nat (count_deleted_docs false t)) ∈ t).
Proof.
  intros run t. subst t run.
  destruct (delete_auth_users_spec delete_firestore w)
    as (r & w1 & t & -> & Hatt & Hlogs & Hcount).
  unfold result_of, trace_of. simpl.
  split; [done|]. split; [done|]. split.
  - intros us d f w2.
    destruct (delete_page_users_spec us d f w2) as (w3 & t3 & -> & _ & Hus & _).
    by exists t3.
  - intros deleted failed ->.
    destruct (Hcount deleted failed eq_refl) as (Hd & Hf & Hfs).
    split; [done|]. split; [done|]. split; [|done].
    rewrite Hd, Hf, count_deleted_users_total, Hatt. apply length_fmap.
Qed.

Lemma users_pages_of_list (first : list UserRecord) (rest : list (list UserRecord)) :
  users (pages_of_list (W := W) first rest) = first.
Proof. by destruct rest. Qed.

(** Over a chain that serves given pages, the whole loop. *)
Lemma delete_pages_of_list (rest : list (list UserRecord)) :
  ∀ (first : list UserRecord) (d f : nat) (w : W),
  ∃ d1 f1 w1 t,
    delete_pages (pages_of_list first rest) d f w = (Ok (d1, f1), w1, t)
    ∧ Forall (λ ev, store_silent ev = true) t
    ∧ delete_attempts t = uid <$> concat (first :: rest)
    ∧ listed_identities t = concat rest
    ∧ count_auth_failure_logs t = count_deleted_users false t
    ∧ d1 = d + count_deleted_users true t
    ∧ f1 = f + count_deleted_users false t.
Proof.
  induction rest as [|p ps IH]; intros first d f w; simpl.
  - destruct (delete_page_users_spec first d f w)
      as (w1 & t1 & Hus & Hs1 & Ha1 & Hl1 & Hf1).
    unfold bind. rewrite Hus. simpl. unfold call_then, ret. simpl.
    eexists _, _, _, _. split; [reflexivity|]. split; [silent|].
    read_trace. rewrite Ha1, Hl1, Hf1, !app_nil_r, ?Nat.add_0_r.
    repeat split; try done.
  - destruct (delete_page_users_spec first d f w)
      as (w1 & t1 & Hus & Hs1 & Ha1 & Hl1 & Hf1).
    unfold bind. rewrite Hus. simpl. unfold call_then. simpl.
    destruct (IH p (d + count_deleted_users true t1)
                 (f + count_deleted_users false t1) w1)
      as (d1 & f1 & w2 & t2 & -> & Hs2 & Ha2 & Hl2 & Hf2 & -> & ->).
    eexists _, _, _, _. split; [reflexivity|]. split; [silent|].
    read_trace. rewrite Ha1, Ha2, Hl1, Hl2, Hf1, Hf2, ?Nat.add_0_r. simpl.
    rewrite !fmap_app, ?Nat.add_assoc, users_pages_of_list.
    repeat split; try done.
Qed.


End Deleters.

(** ** The driver *)

Section Driver.
Context {W : Type} `{Platform W}.

(** C1, as the code has it. For a migration run over a source file that
    holds exactly one record, which lacks an email attribute, the logged
    summary is total=1, success=0, failed=1: the worker returns [None] for
    the skipped record and the driver counts every [None] as a failure. *)
Theorem migration_summary_counts_skip_as_failed (user_data : UserData) (db : Client)
    (w w1 w2 : W) (t1 : list Event) :
  connect w = (Ok db, w1, t1) →
  open_json_load "cognito_users.json" w1 = (Ok (mkCognitoData [user_data]), w2) →
  get_attribute_value (Attributes user_data) "email" = None →
  migrate_action w
  = (Ok (), w2,
     t1 ++ [OpenJsonLoad "cognito_users.json";
            Log WARNING "Skipping user: No email found"]
        ++ summary_records 1 0 1).
Proof.
  intros Hconnect Hload Hemail.
  assert (Hskip : ∀ w0, migrate_user user_data db w0
                        = (Ok None, w0, [Log WARNING "Skipping user: No email found"])).
  { intros w0. apply migrate_user_without_email. by rewrite Hemail. }
  unfold migrate_action, bind at 1. rewrite Hconnect.
  unfold bind at 1, call, call_with. rewrite Hload. simpl.
  unfold bind at 1. simpl. unfold bind at 1. rewrite Hskip. reflexivity.
Qed.

End Driver.

(** ** The mapped document and the merge write *)

(** C10. The [Attributes] object of the mapped document always has the seven
    keys; each of the five string attributes holds the attribute's value, or
    null when the record lacks it. The worker writes this document, and no
    other, with [merge=True]; so for an absent attribute the stored value is
    replaced by null, whether the merge overlays top-level fields or the
    fields of the nested map. *)
Theorem mapped_attributes_keep_absent_as_null `{Platform W}
    (user_data : UserData) (user_record : UserRecord) :
  let attributes := Attributes user_data in
  let doc := create_firestore_user_data user_data user_record in
  ∃ attrs : gmap string PyVal,
    doc !! "Attributes" = Some (DMap attrs)
    ∧ dom attrs = list_to_set ["email"; "email_verified"; "phone_number";
                               "phone_number_verified"; "family_name";
                               "given_name"; "sub"]
    ∧ (∀ k, k ∈ string_attributes →
         attrs !! k = Some (match get_attribute_value attributes k with
                            | Some v => VStr v
                            | None => VNone
                            end))
    ∧ (∀ k stored, k ∈ string_attributes →
         get_attribute_value attributes k = None →
         attribute_of (merge_document stored doc) k = Some VNone
         ∧ attribute_of (merge_shallow stored doc) k = Some VNone)
    ∧ (∀ (db : Client) (w : W),
         let written := document_writes (trace_of (migrate_user user_data db w)) in
         written = []
         ∨ ∃ u, written = [(document (collection db "users") (uid u),
                            create_firestore_user_data user_data u, true)]).
Proof.
  intros attributes doc. exists (firestore_attributes attributes).
  split; [reflexivity|]. split; [reflexivity|]. split; [|split].
  - intros k Hk. by rewrite firestore_attributes_string.
  - intros k stored Hk Habsent.
    pose proof (firestore_attributes_string attributes k Hk) as Hnull.
    rewrite Habsent in Hnull. split.
    + by apply merge_document_attribute.
    + subst doc. by rewrite merge_shallow_attribute.
  - intros db w. apply migrate_user_writes.
Qed.

(** ** Concrete runs *)

Section Runs.
Import InMemory Samples.

(** Scenario B on the in-memory platform: the operator chooses 1, then 3. *)
Lemma scenario_b_logs_one_failure :
  let run := main 2 (with_console ["1"; "3"] (with_export [no_email] empty_project)) in
  result_of run = Ok (Some ())
  ∧ log_records (trace_of run)
    = [(WARNING, "Skipping user: No email found");
       (INFO, "Migration completed!");
       (INFO, "Total users processed: 1");
       (INFO, "Successfully migrated: 0");
       (INFO, "Failed to migrate: 1")]
  ∧ (INFO, "Failed to migrate: 0") ∉ log_records (trace_of run).
Proof.
  intros run.
  assert (Hlog : log_records (trace_of run)
                 = [(WARNING, "Skipping user: No email found");
                    (INFO, "Migration completed!");
                    (INFO, "Total users processed: 1");
                    (INFO, "Successfully migrated: 0");
                    (INFO, "Failed to migrate: 1")]) by (vm_compute; reflexivity).
  split; [vm_compute; reflexivity|]. split; [exact Hlog|].
  rewrite Hlog. intros Hin.
  repeat (apply elem_of_cons in Hin as [Hin|Hin]; [discriminate Hin|]).
  by apply elem_of_nil in Hin.
Qed.

(** An [email_verified] attribute in capitals is sent as verified. *)
Lemma capital_TRUE_is_sent_as_verified :
  get_attribute_value (Attributes john) "email_verified" = Some "TRUE"
  ∧ eq_true_str (Some "TRUE") = false
  ∧ (λ kw : gmap string PyVal, kw !! "email_verified")
      <$> created_requests (trace_of (migrate_user john FirestoreClient empty_project))
    = [Some (VBool true); Some (VBool true)].
Proof. repeat split; vm_compute; reflexivity. Qed.

(** C3. A record with given name John and no family name: the creation
    requests carry the display name "John None", not "John". *)
Theorem display_name_of_single_given_name :
  get_attribute_value (Attributes john) "given_name" = Some "John"
  ∧ get_attribute_value (Attributes john) "family_name" = None
  ∧ request_of john "a@x.com" !! "display_name" = Some (VStr "John None")
  ∧ (λ kw : gmap string PyVal, kw !! "display_name")
      <$> created_requests (trace_of (migrate_user john FirestoreClient empty_project))
    = [Some (VStr "John None"); Some (VStr "John None")].
Proof. repeat split; vm_compute; reflexivity. Qed.

(** A stored family name is replaced by null when the record lacks one. *)
Example merge_write_nulls_stored_family_name :
  let w := world_of (migrate_user john FirestoreClient john_exists) in
  attribute_of (default ∅ (store john_exists !! "fb-1")) "family_name"
  = Some (VStr "Doe")
  ∧ attribute_of (default ∅ (store w !! "fb-1")) "family_name" = Some VNone.
Proof. split; vm_compute; reflexivity. Qed.

Lemma skipped_record_makes_no_call :
  migrate_user no_email FirestoreClient empty_project
  = (Ok None, empty_project, [Log WARNING "Skipping user: No email found"])
  ∧ platform_calls (trace_of (migrate_user no_email FirestoreClient empty_project))
    = [].
Proof.
  apply (migrate_user_skips_missing_email no_email FirestoreClient empty_project).
  left. reflexivity.
Defined.

Lemma offline_store_is_logged_not_raised :
  (∃ returned : option UserRecord,
      result_of (migrate_user john FirestoreClient (offline john_exists))
      = Ok returned)
  ∧ migrate_user john FirestoreClient (offline john_exists)
    = (Ok None, offline john_exists,
       [GetUserByEmail "a@x.com";
        Log INFO "User a@x.com already exists in Auth";
        DocumentSet (document (collection FirestoreClient "users") "fb-1")
                    (create_firestore_user_data john john_identity) true;
        Log ERROR "Error migrating user a@x.com: 503 The service is currently unavailable."]).
Proof.
  pose proof (migrate_user_never_raises john FirestoreClient (offline john_exists))
    as [Hreturns Hlogged].
  split; [exact Hreturns|].
  apply (Hlogged "a@x.com"
           (other "503 The service is currently unavailable.")
           (offline john_exists)
           [GetUserByEmail "a@x.com";
            Log INFO "User a@x.com already exists in Auth";
            DocumentSet (document (collection FirestoreClient "users") "fb-1")
                        (create_firestore_user_data john john_identity) true]);
    [reflexivity | discriminate | vm_compute; reflexivity].
Defined.

Lemma existing_identity_is_reused :
  let ref := document (collection FirestoreClient "users") "fb-1" in
  let data := create_firestore_user_data john john_identity in
  let run := migrate_user john FirestoreClient john_exists in
  platform_calls (trace_of run) = [GetUserByEmail "a@x.com"; DocumentSet ref data true]
  ∧ created_requests (trace_of run) = []
  ∧ reset_link_requests (trace_of run) = []
  ∧ document_writes (trace_of run) = [(ref, data, true)]
  ∧ ∀ w2, document_set ref data true john_exists = (Ok (), w2) →
          result_of run = Ok (Some john_identity) ∧ world_of run = w2.
Proof.
  apply (migrate_user_reuses_existing_identity john FirestoreClient
           john_exists john_exists "a@x.com" john_identity);
    [reflexivity | discriminate | reflexivity].
Defined.

Lemma rejected_phone_is_retried_once :
  created_requests (trace_of (migrate_user john FirestoreClient empty_project))
  = [request_of john "a@x.com"; delete "phone_number" (request_of john "a@x.com")].
Proof.
  exact (migrate_user_creates_once_or_twice john FirestoreClient
           empty_project empty_project "a@x.com"
           (mkExn UserNotFoundError
                  "No user record found for the provided email: a@x.com")
           eq_refl ltac:(discriminate) eq_refl eq_refl).
Defined.

Lemma capital_TRUE_requests :
  request_of john "a@x.com" !! "email_verified" = Some (VBool true)
  ∧ Forall (λ kw : gmap string PyVal, kw !! "email_verified" = Some (VBool true))
           (created_requests
              (trace_of (migrate_user john FirestoreClient empty_project))).
Proof.
  exact (request_email_verified_ignores_case john FirestoreClient empty_project
           "a@x.com" eq_refl ltac:(discriminate)).
Defined.

Lemma scenario_b_summary :
  migrate_action (with_export [no_email] empty_project)
  = (Ok (), with_app (with_export [no_email] empty_project),
     [GetApp; LoadCertificate "service-account.json"; InitializeApp;
      FirestoreClientCall]
     ++ [OpenJsonLoad "cognito_users.json";
         Log WARNING "Skipping user: No email found"]
     ++ summary_records 1 0 1).
Proof.
  apply (migration_summary_counts_skip_as_failed no_email FirestoreClient
           (with_export [no_email] empty_project)
           (with_app (with_export [no_email] empty_project))
           (with_app (with_export [no_email] empty_project)));
    reflexivity.
Defined.

(** Three identities in pages of two, the first of which cannot be deleted:
    all three are attempted, and the pair reports two deleted, one failed. *)
Example three_identities_run :
  let run := delete_auth_users true three_identities in
  result_of run = Ok (2, 1)
  ∧ listed_identities (trace_of run)
    = [mkUserRecord "u9" None; mkUserRecord "u7" (Some "b@x.com");
       mkUserRecord "u8" None]
  ∧ delete_attempts (trace_of run) = ["u9"; "u7"; "u8"]
  ∧ count_deleted_docs true (trace_of run) = 1.
Proof. repeat split; vm_compute; reflexivity. Qed.


End Runs.

(** * Further properties *)

(** ** The record extractor *)

(** X1. [get_attribute_value] returns the value of the first entry with the
    given name, also when later entries repeat the name. *)
Theorem get_attribute_value_first_match (attributes : list Attribute)
    (name v : string) :
  get_attribute_value attributes name = Some v
  ↔ ∃ before after,
      attributes = before ++ mkAttribute name v :: after
      ∧ Forall (λ attr, Name attr ≠ name) before.
Proof.
  induction attributes as [|[n x] rest IH]; simpl.
  - split; [discriminate|]. intros (before & after & Heq & _).
    by destruct before.
  - destruct (String.eqb_spec n name) as [->|Hne].
    + split.
      * intros [= ->]. by exists [], rest.
      * intros (before & after & Heq & Hbefore).
        destruct before as [|b before]; simpl in Heq.
        -- by injection Heq as -> _.
        -- injection Heq as <- _. by inversion Hbefore.
    + rewrite IH. split.
      * intros (before & after & -> & Hbefore).
        exists (mkAttribute n x :: before), after. split; [done|].
        by constructor.
      * intros (before & after & Heq & Hbefore).
        destruct before as [|b before]; simpl in Heq.
        -- injection Heq as -> _. done.
        -- injection Heq as <- ->. exists before, after. split; [done|].
           by inversion Hbefore.
Qed.

(** X2. [get_attribute_value] returns [None] exactly when no entry of the
    list has the given name. *)
Theorem get_attribute_value_absent (attributes : list Attribute) (name : string) :
  get_attribute_value attributes name = None
  ↔ Forall (λ attr, Name attr ≠ name) attributes.
Proof.
  induction attributes as [|[n x] rest IH]; simpl.
  - split; [constructor|done].
  - destruct (String.eqb_spec n name) as [->|Hne].
    + split; [discriminate|]. by inversion 1.
    + rewrite IH. split; [by constructor|by inversion 1].
Qed.

(** ** The identity-creation request *)

Lemma request_lookup_literal (user_data : UserData) (email_v k : string) (v : PyVal) :
  k ≠ "phone_number" →
  user_kwargs_literal user_data email_v
    (get_attribute_value (Attributes user_data) "email_verified")
    (get_attribute_value (Attributes user_data) "given_name")
    (get_attribute_value (Attributes user_data) "family_name") !! k = Some v →
  v ≠ VNone →
  request_of user_data email_v !! k = Some v.
Proof.
  intros Hk Hlit Hv. unfold request_of, build_user_kwargs.
  apply map_lookup_filter_Some. split; [|done].
  destruct (get_attribute_value (Attributes user_data) "phone_number") as [p|];
    [destruct (PyStr.truthy p)|]; try done.
  by rewrite lookup_insert_ne.
Qed.

(** X3. The request always carries uid = Username, the email, the fixed
    default password and disabled = not Enabled; it has a [phone_number]
    exactly when the phone attribute is present and non-empty; and no field
    of the request is [None]. *)
Theorem request_fixed_fields (user_data : UserData) (email_v : string) :
  let request := request_of user_data email_v in
  request !! "uid" = Some (VStr (Username user_data))
  ∧ request !! "email" = Some (VStr email_v)
  ∧ request !! "password" = Some (VStr "Default@123")
  ∧ request !! "disabled" = Some (VBool (negb (Enabled user_data)))
  ∧ request !! "phone_number"
    = match get_attribute_value (Attributes user_data) "phone_number" with
      | Some p => if PyStr.truthy p then Some (VStr p) else None
      | None => None
      end
  ∧ ∀ k, request !! k ≠ Some VNone.
Proof.
  intros request. subst request.
  do 4 (split; [by apply request_lookup_literal|]). split.
  - unfold request_of, build_user_kwargs.
    destruct (get_attribute_value (Attributes user_data) "phone_number") as [p|];
      [destruct (PyStr.truthy p)|].
    + apply map_lookup_filter_Some. split; [|done]. apply lookup_insert_eq.
    + apply map_lookup_filter_None. by left.
    + apply map_lookup_filter_None. by left.
  - intros k Hk. unfold request_of, build_user_kwargs in Hk.
    apply map_lookup_filter_Some in Hk as [_ Hv]. by apply Hv.
Qed.

(** X4. When both name attributes are present the display name is the
    stripped text "given family"; when neither is present, or both are
    empty, the request has no [display_name] field. *)
Theorem request_display_name_both_or_none (user_data : UserData) (email_v : string) :
  let given_name := get_attribute_value (Attributes user_data) "given_name" in
  let family_name := get_attribute_value (Attributes user_data) "family_name" in
  let request := request_of user_data email_v in
  (∀ g f, given_name = Some g → family_name = Some f →
          PyStr.truthy g || PyStr.truthy f = true →
          request !! "display_name" = Some (VStr (PyStr.strip (g +:+ " " +:+ f))))
  ∧ (PyStr.truthy_opt given_name || PyStr.truthy_opt family_name = false →
     request !! "display_name" = None).
Proof.
  intros given_name family_name request. subst request.
  pose proof (request_display_name user_data email_v) as Hname.
  simpl in Hname. fold given_name family_name in Hname. split.
  - intros g f Hg Hf Ht. rewrite Hname, Hg, Hf. simpl. by rewrite Ht.
  - intros Hnone. by rewrite Hname, Hnone.
Qed.

(** ** The migration worker, path by path *)

Section WorkerPaths.
Context {W : Type} `{Platform W}.

Ltac unfold_worker :=
  unfold migrate_user_try, lookup_or_create, try_except_class,
    try_except, bind, call, call_with, logging_info, logging_warning,
    logging_error, emit, ret, raise, result_of, trace_of, world_of in *.

Ltac enter_try user_data email_v Hemail Hne :=
  rewrite (migrate_user_with_email _ _ _ Hemail Hne);
  unfold migrate_user_try; fold (request_of user_data email_v).

(** X5. A new email whose identity is created at the first attempt: the
    worker calls, in this order, the lookup, create-identity, the reset-link
    generation and one merge write under the uid the platform assigned, and
    returns the created identity. *)
Theorem migrate_user_creates_new_identity (user_data : UserData) (db : Client)
    (w w1 w2 w3 w4 : W) (email_v link : string) (not_found : Exn)
    (created : UserRecord) :
  get_attribute_value (Attributes user_data) "email" = Some email_v →
  email_v ≠ "" →
  get_user_by_email email_v w = (Raise not_found, w1) →
  exn_class not_found = UserNotFoundError →
  create_user (request_of user_data email_v) w1 = (Ok created, w2) →
  generate_password_reset_link email_v w2 = (Ok link, w3) →
  document_set (document (collection db "users") (uid created))
               (create_firestore_user_data user_data created) true w3
  = (Ok (), w4) →
  migrate_user user_data db w
  = (Ok (Some created), w4,
     [GetUserByEmail email_v;
      CreateUser (request_of user_data email_v);
      Log INFO ("Created Auth user with phone: " +:+ email_v);
      GeneratePasswordResetLink email_v;
      Log INFO ("Password reset link for " +:+ email_v +:+ ": " +:+ link);
      DocumentSet (document (collection db "users") (uid created))
                  (create_firestore_user_data user_data created) true;
      Log INFO ("Updated Firestore data for user: " +:+ email_v)]).
Proof.
  intros Hemail Hne Hget Hcls Hcreate Hlink Hset.
  enter_try user_data email_v Hemail Hne. unfold_worker.
  rewrite Hget. simpl. rewrite Hcls, Hcreate. simpl. rewrite Hlink. simpl.
  by rewrite Hset.
Qed.

(** X6. When the identity was created but the reset-link generation raises,
    the worker writes no document: it logs the error and returns [None],
    leaving the new identity without a document. *)
Theorem reset_link_failure_leaves_no_document (user_data : UserData) (db : Client)
    (w w1 w2 w3 : W) (email_v : string) (not_found e : Exn) (created : UserRecord) :
  get_attribute_value (Attributes user_data) "email" = Some email_v →
  email_v ≠ "" →
  get_user_by_email email_v w = (Raise not_found, w1) →
  exn_class not_found = UserNotFoundError →
  create_user (request_of user_data email_v) w1 = (Ok created, w2) →
  generate_password_reset_link email_v w2 = (Raise e, w3) →
  migrate_user user_data db w
  = (Ok None, w3,
     [GetUserByEmail email_v;
      CreateUser (request_of user_data email_v);
      Log INFO ("Created Auth user with phone: " +:+ email_v);
      GeneratePasswordResetLink email_v;
      Log ERROR ("Error migrating user " +:+ email_v +:+ ": " +:+ exn_str e)])
  ∧ document_writes (trace_of (migrate_user user_data db w)) = [].
Proof.
  intros Hemail Hne Hget Hcls Hcreate Hlink.
  enter_try user_data email_v Hemail Hne. unfold_worker.
  rewrite Hget. simpl. rewrite Hcls, Hcreate. simpl. by rewrite Hlink.
Qed.

(** X7. When the first create-identity call raises a phone-number issue and
    the retry without the phone number raises too, nothing further is tried,
    even if the second failure is again a phone-number issue: no reset link
    is generated, no document is written, the second error is logged and the
    worker returns [None]. *)
Theorem retry_failure_is_final (user_data : UserData) (db : Client)
    (w w1 w2 w3 : W) (email_v : string) (not_found e1 e2 : Exn) :
  get_attribute_value (Attributes user_data) "email" = Some email_v →
  email_v ≠ "" →
  get_user_by_email email_v w = (Raise not_found, w1) →
  exn_class not_found = UserNotFoundError →
  create_user (request_of user_data email_v) w1 = (Raise e1, w2) →
  phone_number_issue e1 = true →
  create_user (delete "phone_number" (request_of user_data email_v)) w2
  = (Raise e2, w3) →
  migrate_user user_data db w
  = (Ok None, w3,
     [GetUserByEmail email_v;
      CreateUser (request_of user_data email_v);
      Log WARNING ("Phone number issue for " +:+ email_v +:+ ": " +:+ exn_str e1
                   +:+ ". Creating user without phone.");
      CreateUser (delete "phone_number" (request_of user_data email_v));
      Log ERROR ("Error migrating user " +:+ email_v +:+ ": " +:+ exn_str e2)]).
Proof.
  intros Hemail Hne Hget Hcls Hcreate Hphone Hretry.
  enter_try user_data email_v Hemail Hne. unfold_worker.
  rewrite Hget. simpl. rewrite Hcls, Hcreate. simpl. rewrite Hphone. simpl.
  by rewrite Hretry.
Qed.

(** X8. Every document the worker writes goes to the [users] collection
    with [merge=True], and is stored under the very uid that its
    [firebase_uid] field holds; its [Username] is the one of the record. *)
Theorem written_document_is_keyed_by_its_uid (user_data : UserData) (db : Client)
    (w : W) (ref : DocumentReference) (data : gmap string DocVal) (merge : bool) :
  (ref, data, merge) ∈ document_writes (trace_of (migrate_user user_data db w)) →
  merge = true
  ∧ parent ref = mkCollection "users"
  ∧ data !! "firebase_uid" = Some (DVal (VStr (document_id ref)))
  ∧ data !! "Username" = Some (DVal (VStr (Username user_data))).
Proof.
  intros Hin.
  destruct (migrate_user_writes user_data db w) as [Hnone | [u Hone]]; simpl in *.
  - rewrite Hnone in Hin. by apply elem_of_nil in Hin.
  - rewrite Hone in Hin. apply list_elem_of_singleton in Hin.
    injection Hin as -> -> ->. repeat split.
Qed.

End WorkerPaths.

(** ** The migration batch *)

Section Batch.
Context {W : Type} `{Platform W}.

Lemma migrate_user_returns (user_data : UserData) (db : Client) (w : W) :
  ∃ r w1 t, migrate_user user_data db w = (Ok r, w1, t).
Proof.
  unfold migrate_user. destruct (negb _); [by eexists _, _, _|].
  unfold try_except.
  destruct (migrate_user_try _ _ _ _ _ _ _ w) as [[[r|e] w1] t1];
    by eexists _, _, _.
Qed.

Lemma migrate_users_totals (us : list UserData) (db : Client) :
  ∀ (success failed : nat) (w : W),
  ∃ s1 f1 w1 t,
    migrate_users us db success failed w = (Ok (s1, f1), w1, t)
    ∧ s1 + f1 = success + failed + length us.
Proof.
  induction us as [|user rest IH]; intros success failed w; simpl.
  - exists success, failed, w, []. split; [reflexivity|lia].
  - destruct (migrate_user_returns user db w) as (r & w1 & t1 & Hone).
    unfold bind. rewrite Hone.
    destruct r as [u|].
    + destruct (IH (S success) failed w1) as (s1 & f1 & w2 & t2 & -> & Hsum).
      eexists _, _, _, _. split; [reflexivity|lia].
    + destruct (IH success (S failed) w1) as (s1 & f1 & w2 & t2 & -> & Hsum).
      eexists _, _, _, _. split; [reflexivity|lia].
Qed.

(** X9. Once the client is obtained and the export file is loaded, a
    migration run never raises, whatever happens to the single records, and
    the summary it logs adds up: total = success + failed, total being the
    number of records of the file. *)
Theorem migration_summary_adds_up (db : Client) (w w1 w2 : W) (t1 : list Event)
    (cognito_data : CognitoData) :
  connect w = (Ok db, w1, t1) →
  open_json_load "cognito_users.json" w1 = (Ok cognito_data, w2) →
  ∃ (success failed : nat) (w3 : W) (t : list Event),
    migrate_action w
    = (Ok (), w3,
       t1 ++ OpenJsonLoad "cognito_users.json"
          :: t ++ summary_records (length (Users cognito_data)) success failed)
    ∧ success + failed = length (Users cognito_data).
Proof.
  intros Hconnect Hload.
  destruct (migrate_users_totals (Users cognito_data) db 0 0 w2)
    as (s1 & f1 & w3 & t & Hrun & Hsum).
  exists s1, f1, w3, t. split; [|exact Hsum].
  unfold migrate_action, bind at 1. rewrite Hconnect.
  unfold bind at 1, call, call_with. rewrite Hload. simpl.
  unfold bind at 1. rewrite Hrun. reflexivity.
Qed.

(** X10. A batch in which every record lacks an email makes no platform
    call and changes nothing: each record adds one warning and one unit to
    the failure counter, and the success counter stays as it was. *)
Theorem batch_without_emails_only_fails (us : list UserData) (db : Client)
    (success failed : nat) (w : W) :
  Forall (λ user, get_attribute_value (Attributes user) "email" = None) us →
  migrate_users us db success failed w
  = (Ok (success, failed + length us), w,
     replicate (length us) (Log WARNING "Skipping user: No email found")).
Proof.
  intros Hall. revert failed.
  induction Hall as [|user rest Huser _ IH]; intros failed; simpl.
  - unfold ret. by rewrite Nat.add_0_r.
  - unfold bind. rewrite migrate_user_without_email by (by rewrite Huser).
    rewrite IH. simpl.
    by rewrite Nat.add_succ_r.
Qed.

End Batch.

(** ** The bulk deleters, call by call *)

Lemma document_delete_attempts_app (t1 t2 : list Event) :
  document_delete_attempts (t1 ++ t2)
  = document_delete_attempts t1 ++ document_delete_attempts t2.
Proof. apply omap_app. Qed.

Lemma filter_nil_of_Forall (f : Event → bool) (t : list Event) :
  Forall (λ ev, f ev = false) t → List.filter f t = [].
Proof. induction 1 as [|ev t Hev _ IH]; simpl; [done|]. by rewrite Hev. Qed.

Section DeleterPaths.
Context {W : Type} `{Platform W}.

Ltac unfold_run :=
  unfold try_except_class, try_except, bind, call, call_with, call_then,
    logging_info, logging_warning, logging_error, emit, ret, raise,
    result_of, trace_of, world_of in *.

Ltac every_event :=
  repeat first [ assumption | apply Forall_nil_2
               | apply Forall_cons_2; [auto|] | apply Forall_app_2 ].

(** The events [ensure_app] can leave. *)
Lemma ensure_app_events (P : Event → Prop) (w : W) :
  P GetApp → P (LoadCertificate "service-account.json") → P InitializeApp →
  Forall P (trace_of (ensure_app w)).
Proof.
  intros P1 P2 P3. unfold ensure_app. unfold_run.
  destruct (get_app w) as [[[]|e] w1]; simpl; [every_event|].
  destruct (exn_class e); simpl; [every_event| |every_event].
  destruct (Certificate _ w1) as [[cred|e1] w2]; simpl; [|every_event].
  destruct (initialize_app cred w2) as [[[]|e2] w3]; simpl; every_event.
Qed.

(** The events the identity loops can leave. *)
Lemma delete_page_users_events (P : Event → Prop) (us : list UserRecord) :
  (∀ u ok, P (DeleteUser u ok)) → (∀ l m, P (Log l m)) →
  ∀ (d f : nat) (w : W), Forall P (trace_of (delete_page_users us d f w)).
Proof.
  intros P1 P2. induction us as [|user rest IH]; intros d f w; simpl.
  - constructor.
  - unfold bind, trace_of.
    assert (Hone : ∃ c w1 t1, delete_one_user user d f w = (Ok c, w1, t1)
                              ∧ Forall P t1).
    { unfold delete_one_user. unfold_run.
      destruct (delete_user (uid user) w) as [[[]|e] w1]; simpl;
        eexists _, _, _; (split; [reflexivity|every_event]). }
    destruct Hone as (c & w1 & t1 & -> & Ht1).
    specialize (IH c.1 c.2 w1). unfold trace_of in IH.
    destruct (delete_page_users rest c.1 c.2 w1) as [[r w2] t2]. simpl in *.
    by apply Forall_app_2.
Qed.

Lemma delete_pages_events (P : Event → Prop) (page : ListUsersPage W) :
  (∀ u ok, P (DeleteUser u ok)) → (∀ l m, P (Log l m)) →
  P GetNextPage → (∀ us, P (PageServed us)) →
  ∀ (d f : nat) (w : W), Forall P (trace_of (delete_pages page d f w)).
Proof.
  intros P1 P2 P3 P4.
  induction page as [us next IH] using ListUsersPage_chain_ind.
  intros d f w. simpl.
  pose proof (delete_page_users_events P us P1 P2 d f w) as Hus.
  unfold bind, trace_of in *.
  destruct (delete_page_users us d f w) as [[[c|e] w1] t1]; simpl in *; [|done].
  unfold call_then. specialize (IH w1).
  destruct (next w1) as [[[p|]|e] w2]; simpl.
  - specialize (IH c.1 c.2 w2).
    destruct (delete_pages p c.1 c.2 w2) as [[r w3] t3]. simpl in *.
    every_event.
  - every_event.
  - every_event.
Qed.

(** The events the store deleter can leave. *)
Lemma delete_docs_events (P : Event → Prop) (docs : DocStream W) :
  (∀ r ok, P (DocumentDelete r ok)) → (∀ l m, P (Log l m)) →
  ∀ (d f : nat) (w : W), Forall P (trace_of (delete_docs docs d f w)).
Proof.
  intros P1 P2. induction docs as [next IH] using DocStream_chain_ind.
  intros d f w. simpl. unfold call_then, trace_of. specialize (IH w).
  destruct (next w) as [[[[doc rest]|]|e] w1]; simpl; [|constructor..].
  unfold bind.
  assert (Hone : ∃ c w2 t2, delete_one_doc doc d f w1 = (Ok c, w2, t2)
                            ∧ Forall P t2).
  { unfold delete_one_doc. unfold_run.
    destruct (document_delete _ w1) as [[[]|e] w2]; simpl;
      eexists _, _, _; (split; [reflexivity|every_event]). }
  destruct Hone as (c & w2 & t2 & -> & Ht2).
  specialize (IH c.1 c.2 w2). unfold trace_of in IH.
  destruct (delete_docs rest c.1 c.2 w2) as [[r w3] t3]. simpl in *.
  by apply Forall_app_2.
Qed.

Lemma delete_firestore_users_events (P : Event → Prop) (w : W) :
  P GetApp → P (LoadCertificate "service-account.json") → P InitializeApp →
  P FirestoreClientCall → (∀ c, P (Stream c)) →
  (∀ r ok, P (DocumentDelete r ok)) → (∀ l m, P (Log l m)) →
  Forall P (trace_of (delete_firestore_users w)).
Proof.
  intros P1 P2 P3 P4 P5 P6 P7. unfold delete_firestore_users.
  pose proof (ensure_app_events P w P1 P2 P3) as Happ.
  unfold_run. destruct (ensure_app w) as [[[[]|e] w1] t1]; simpl in *;
    [|every_event].
  destruct (firestore_client w1) as [[db|e] w2]; simpl; [|every_event].
  pose proof (delete_docs_events P (collection_stream (collection db "users"))
                P6 P7 0 0 w2) as Hdocs.
  unfold trace_of in Hdocs.
  destruct (delete_docs _ 0 0 w2) as [[[c|e] w3] t3]; simpl in *; every_event.
Qed.

End DeleterPaths.

Lemma count_deleted_docs_total (t : list Event) :
  count_deleted_docs true t + count_deleted_docs false t
  = length (document_delete_attempts t).
Proof.
  induction t as [|ev t IH]; [done|].
  rewrite !count_deleted_docs_cons.
  change (ev :: t) with ([ev] ++ t). rewrite document_delete_attempts_app, length_app.
  rewrite <- IH.
  destruct ev; cbn; try lia;
    match goal with b : bool |- _ => destruct b end; cbn; lia.
Qed.

Section DeleterProperties.
Context {W : Type} `{Platform W}.

Ltac unfold_run :=
  unfold try_except_class, try_except, bind, call, call_with, call_then,
    logging_info, logging_warning, logging_error, emit, ret, raise,
    result_of, trace_of, world_of in *.

Ltac every_event :=
  repeat first [ assumption | apply Forall_nil_2
               | apply Forall_cons_2; [done|] | apply Forall_app_2 ].

Lemma delete_one_doc_attempt (doc : DocumentSnapshot.t) (d f : nat) (w : W) :
  ∃ w1 t,
    delete_one_doc doc d f w
    = (Ok (d + count_deleted_docs true t, f + count_deleted_docs false t), w1, t)
    ∧ document_delete_attempts t = [DocumentSnapshot.reference doc].
Proof.
  unfold delete_one_doc. unfold_run.
  destruct (document_delete _ w) as [[[]|e] w1]; simpl; do 2 eexists;
    (split; [apply f_equal2; [apply f_equal2; [|reflexivity]|reflexivity]
            |reflexivity]);
    autorewrite with trace; cbn; do 2 f_equal; lia.
Qed.



(** X13. [delete_auth_users(delete_firestore=False)] never reaches the
    document store: it fetches no Firestore client, streams no collection
    and deletes or writes no document. *)
Theorem auth_only_deletion_never_touches_store (w : W) :
  store_calls (trace_of (delete_auth_users false w)) = [].
Proof.
  apply filter_nil_of_Forall. unfold delete_auth_users, cascade_to_store.
  pose proof (ensure_app_events (λ ev, is_store_call ev = false) w
                eq_refl eq_refl eq_refl) as Happ.
  unfold_run. destruct (ensure_app w) as [[[[]|e] w1] t1]; simpl in *;
    [|every_event].
  destruct (list_users w1) as [[page|e] w2]; simpl; [|every_event].
  pose proof (delete_pages_events (λ ev, is_store_call ev = false) page
                ltac:(done) ltac:(done) eq_refl ltac:(done) 0 0 w2) as Hpages.
  unfold trace_of in Hpages.
  destruct (delete_pages page 0 0 w2) as [[[c|e] w3] t3]; simpl in *;
    every_event.
Qed.

(** X14. When the cascaded store deletion raises, [delete_auth_users] stops
    there: it re-raises the same exception after logging it as fatal, and
    lists and deletes no identity. *)
Theorem cascade_failure_stops_identity_deletion (w w1 w2 : W)
    (t1 t2 : list Event) (e : Exn) :
  ensure_app w = (Ok (), w1, t1) →
  delete_firestore_users w1 = (Raise e, w2, t2) →
  delete_auth_users true w
  = (Raise e, w2,
     t1 ++ t2 ++ [Log ERROR ("Fatal error during deletion: " +:+ exn_str e)])
  ∧ identity_calls (trace_of (delete_auth_users true w)) = [].
Proof.
  intros Happ Hstore.
  assert (Hrun : delete_auth_users true w
                 = (Raise e, w2,
                    t1 ++ t2 ++ [Log ERROR ("Fatal error during deletion: "
                                            +:+ exn_str e)])).
  { unfold delete_auth_users, cascade_to_store. unfold_run.
    rewrite Happ. simpl. rewrite Hstore. simpl. by rewrite <- app_assoc. }
  split; [exact Hrun|]. rewrite Hrun. unfold trace_of. simpl.
  apply filter_nil_of_Forall.
  pose proof (ensure_app_events (λ ev, is_identity_call ev = false) w
                eq_refl eq_refl eq_refl) as H1.
  pose proof (delete_firestore_users_events (λ ev, is_identity_call ev = false) w1
                eq_refl eq_refl eq_refl eq_refl ltac:(done) ltac:(done)
                ltac:(done)) as H2.
  rewrite Happ in H1. rewrite Hstore in H2. unfold trace_of in *. simpl in *.
  every_event.
Qed.

End DeleterProperties.

(** ** The driver, action by action *)

Section DriverPaths.
Context {W : Type} `{Platform W}.

Lemma bind_Ok_inv {A B} (m : M W A) (f : A → M W B) (w w2 : W) (b : B)
    (t : list Event) :
  bind m f w = (Ok b, w2, t) →
  ∃ a w1 t1 t2, m w = (Ok a, w1, t1) ∧ f a w1 = (Ok b, w2, t2) ∧ t = t1 ++ t2.
Proof.
  unfold bind. destruct (m w) as [[[a|e] w1] t1]; [|discriminate].
  destruct (f a w1) as [[r w3] t2] eqn:Hf. intros [= -> -> <-].
  by exists a, w1, t1, t2.
Qed.

Lemma main_loop_exit (fuel : nat) :
  ∀ (w w1 : W) (t : list Event),
    main_loop fuel w = (Ok (Some ()), w1, t) →
    ∃ t0, t = t0 ++ [Print "Exiting..."].
Proof.
  induction fuel as [|fuel IH]; intros w w1 t; simpl; [discriminate|].
  intros (action & w2 & t1 & t2 & _ & Hbranch & ->)%bind_Ok_inv.
  destruct (String.eqb action "1");
    [|destruct (String.eqb action "2"); [|destruct (String.eqb action "3")]].
  - apply bind_Ok_inv in Hbranch as (? & w3 & t3 & t4 & _ & Hrest & ->).
    destruct (IH _ _ _ Hrest) as [t0 ->].
    exists (t1 ++ t3 ++ t0). by rewrite <- !app_assoc.
  - apply bind_Ok_inv in Hbranch as (? & w3 & t3 & t4 & _ & Hrest & ->).
    destruct (IH _ _ _ Hrest) as [t0 ->].
    exists (t1 ++ t3 ++ t0). by rewrite <- !app_assoc.
  - injection Hbranch as _ <-. by exists t1.
  - apply bind_Ok_inv in Hbranch as (? & w3 & t3 & t4 & _ & Hrest & ->).
    destruct (IH _ _ _ Hrest) as [t0 ->].
    exists (t1 ++ t3 ++ t0). by rewrite <- !app_assoc.
Qed.

(** X15. [main] handles nothing itself: whenever its loop raises an
    exception, [main] logs it as "Fatal error: ..." as its last action and
    raises that same exception; otherwise it returns what the loop returned,
    and it returns normally only after printing "Exiting...". So a closed
    console ends the run with the fatal record, an export file that cannot be
    loaded aborts the run before any record is migrated, and the answer 3
    ends it at once. *)
Theorem main_reraises_after_fatal_log (fuel : nat) (w : W) :
  match main_loop fuel w with
  | (Raise e, w1, t) =>
      main fuel w
      = (Raise e, w1, t ++ [Log ERROR ("Fatal error: " +:+ exn_str e)])
  | (Ok returned, w1, t) =>
      main fuel w = (Ok returned, w1, t)
      ∧ (returned = Some () → ∃ t0, t = t0 ++ [Print "Exiting..."])
  end
  ∧ (∀ (e : Exn) (w1 : W),
       input "Choose action (1: Migrate users, 2: Delete users, 3: Exit): " w
       = (Raise e, w1) →
       main (S fuel) w
       = (Raise e, w1,
          [Input "Choose action (1: Migrate users, 2: Delete users, 3: Exit): ";
           Log ERROR ("Fatal error: " +:+ exn_str e)]))
  ∧ (∀ (db : Client) (e : Exn) (w1 w2 w3 : W) (t2 : list Event),
       input "Choose action (1: Migrate users, 2: Delete users, 3: Exit): " w
       = (Ok "1", w1) →
       connect w1 = (Ok db, w2, t2) →
       open_json_load "cognito_users.json" w2 = (Raise e, w3) →
       main (S fuel) w
       = (Raise e, w3,
          Input "Choose action (1: Migrate users, 2: Delete users, 3: Exit): "
          :: t2 ++ [OpenJsonLoad "cognito_users.json";
                    Log ERROR ("Fatal error: " +:+ exn_str e)]))
  ∧ (∀ w1 : W,
       input "Choose action (1: Migrate users, 2: Delete users, 3: Exit): " w
       = (Ok "3", w1) →
       main (S fuel) w
       = (Ok (Some ()), w1,
          [Input "Choose action (1: Migrate users, 2: Delete users, 3: Exit): ";
           Print "Exiting..."])).
Proof.
  split; [|split; [|split]].
  - unfold main, try_except.
    destruct (main_loop fuel w) as [[[r|e0] w1] t] eqn:Hloop; simpl; [|done].
    split; [done|]. intros ->. by apply main_loop_exit in Hloop.
  - intros e w1 Hinput. unfold main, try_except. simpl.
    unfold bind at 1, call, call_with. by rewrite Hinput.
  - intros db e w1 w2 w3 t2 Hinput Hconnect Hload.
    unfold main, try_except. simpl.
    unfold bind at 1, call, call_with. rewrite Hinput. simpl.
    unfold bind at 1, migrate_action. unfold bind at 1. rewrite Hconnect.
    unfold bind at 1, call, call_with. rewrite Hload. simpl.
    by rewrite <- app_assoc.
  - intros w1 Hinput. unfold main, try_except. simpl.
    unfold bind at 1, call, call_with. by rewrite Hinput.
Qed.

(** X16. The delete action deletes nothing unless the confirmation is "yes"
    in some capitalisation and the scope is 1, 2 or 3: otherwise it only
    reads its two answers and prints "Deletion cancelled", or "Invalid
    option" after a confirmed but unknown scope. *)
Theorem deletion_needs_confirmation_and_scope (w w1 w2 : W)
    (delete_type confirm : string) :
  input "Delete from (1: Both Auth and Firestore, 2: Auth only, 3: Firestore only): " w
  = (Ok delete_type, w1) →
  input "Are you sure? This will permanently delete the data (yes/no): " w1
  = (Ok confirm, w2) →
  PyStr.lower confirm ≠ "yes"
  ∨ (delete_type ≠ "1" ∧ delete_type ≠ "2" ∧ delete_type ≠ "3") →
  delete_action w
  = (Ok (), w2,
     [Input "Delete from (1: Both Auth and Firestore, 2: Auth only, 3: Firestore only): ";
      Input "Are you sure? This will permanently delete the data (yes/no): ";
      Print (if String.eqb (PyStr.lower confirm) "yes"
             then "Invalid option" else "Deletion cancelled")]).
Proof.
  intros Htype Hconfirm Hguard. unfold delete_action.
  unfold bind at 1, call, call_with. rewrite Htype.
  unfold bind at 1. rewrite Hconfirm.
  destruct (String.eqb_spec (PyStr.lower confirm) "yes") as [Hyes|Hno];
    [|reflexivity].
  destruct Hguard as [Hno|(H1 & H2 & H3)]; [done|].
  apply String.eqb_neq in H1, H2, H3. by rewrite H1, H2, H3.
Qed.

End DriverPaths.

(** ** Further concrete runs *)

Section FurtherRuns.
Import InMemory Samples MoreSamples.

Lemma ann_is_created :
  ∃ (w4 : World) (link : string),
    migrate_user ann FirestoreClient empty_project
    = (Ok (Some ann_identity), w4,
       [GetUserByEmail "ann@x.com";
        CreateUser (request_of ann "ann@x.com");
        Log INFO "Created Auth user with phone: ann@x.com";
        GeneratePasswordResetLink "ann@x.com";
        Log INFO ("Password reset link for ann@x.com: " +:+ link);
        DocumentSet (document (collection FirestoreClient "users") "u3")
                    (create_firestore_user_data ann ann_identity) true;
        Log INFO "Updated Firestore data for user: ann@x.com"]).
Proof.
  eexists _, _.
  eapply (migrate_user_creates_new_identity ann FirestoreClient
            empty_project empty_project _ _ _ "ann@x.com" _
            (mkExn UserNotFoundError
                   "No user record found for the provided email: ann@x.com")
            ann_identity);
    [reflexivity | discriminate | reflexivity | reflexivity
    | reflexivity | reflexivity | reflexivity].
Defined.

Lemma ann_without_reset_link :
  ∃ w3 : World,
    @migrate_user _ (Outage.platform false true) ann FirestoreClient empty_project
    = (Ok None, w3,
       [GetUserByEmail "ann@x.com";
        CreateUser (request_of ann "ann@x.com");
        Log INFO "Created Auth user with phone: ann@x.com";
        GeneratePasswordResetLink "ann@x.com";
        Log ERROR "Error migrating user ann@x.com: QUOTA_EXCEEDED"])
    ∧ document_writes
        (trace_of (@migrate_user _ (Outage.platform false true) ann
                     FirestoreClient empty_project)) = [].
Proof.
  eexists.
  eapply (@reset_link_failure_leaves_no_document _ (Outage.platform false true)
            ann FirestoreClient empty_project empty_project _ _ "ann@x.com"
            (mkExn UserNotFoundError
                   "No user record found for the provided email: ann@x.com")
            (other "QUOTA_EXCEEDED") ann_identity);
    [reflexivity | discriminate | reflexivity | reflexivity
    | reflexivity | reflexivity].
Defined.

Lemma ann_retry_fails :
  @migrate_user _ (Outage.platform true false) ann FirestoreClient empty_project
  = (Ok None, empty_project,
     [GetUserByEmail "ann@x.com";
      CreateUser (request_of ann "ann@x.com");
      Log WARNING "Phone number issue for ann@x.com: PHONE_NUMBER_EXISTS. Creating user without phone.";
      CreateUser (delete "phone_number" (request_of ann "ann@x.com"));
      Log ERROR "Error migrating user ann@x.com: PHONE_NUMBER_EXISTS"]).
Proof.
  apply (@retry_failure_is_final _ (Outage.platform true false)
           ann FirestoreClient empty_project empty_project empty_project
           empty_project "ann@x.com"
           (mkExn UserNotFoundError
                  "No user record found for the provided email: ann@x.com")
           (other "PHONE_NUMBER_EXISTS") (other "PHONE_NUMBER_EXISTS"));
    [reflexivity | discriminate | reflexivity | reflexivity
    | reflexivity | reflexivity | reflexivity].
Defined.

Lemma john_document_is_keyed_by_its_uid :
  create_firestore_user_data john john_identity !! "firebase_uid"
  = Some (DVal (VStr "fb-1"))
  ∧ create_firestore_user_data john john_identity !! "Username"
    = Some (DVal (VStr "u1")).
Proof.
  destruct (written_document_is_keyed_by_its_uid john FirestoreClient john_exists
              (document (collection FirestoreClient "users") "fb-1")
              (create_firestore_user_data john john_identity) true)
    as (_ & _ & Huid & Hname).
  - apply list_elem_of_singleton. reflexivity.
  - exact (conj Huid Hname).
Defined.

Lemma two_records_add_up :
  ∃ (success failed : nat) (w3 : World) (t : list Event),
    migrate_action (with_export [john; no_email] empty_project)
    = (Ok (), w3,
       [GetApp; LoadCertificate "service-account.json"; InitializeApp;
        FirestoreClientCall]
       ++ OpenJsonLoad "cognito_users.json"
          :: t ++ summary_records 2 success failed)
    ∧ success + failed = 2.
Proof.
  exact (migration_summary_adds_up FirestoreClient
           (with_export [john; no_email] empty_project)
           (with_app (with_export [john; no_email] empty_project))
           (with_app (with_export [john; no_email] empty_project))
           [GetApp; LoadCertificate "service-account.json"; InitializeApp;
            FirestoreClientCall]
           (mkCognitoData [john; no_email]) eq_refl eq_refl).
Defined.

Lemma two_records_without_email :
  migrate_users [no_email; nameless] FirestoreClient 0 0 empty_project
  = (Ok (0, 2), empty_project,
     [Log WARNING "Skipping user: No email found";
      Log WARNING "Skipping user: No email found"]).
Proof.
  apply (batch_without_emails_only_fails [no_email; nameless] FirestoreClient
           0 0 empty_project).
  repeat constructor.
Defined.

Lemma offline_cascade_stops_deletion :
  delete_auth_users true (offline three_identities)
  = (Raise (other "503 The service is currently unavailable."),
     with_app (offline three_identities),
     [GetApp; LoadCertificate "service-account.json"; InitializeApp]
     ++ [GetApp; FirestoreClientCall; Stream (mkCollection "users");
         Log ERROR "Fatal error during Firestore deletion: 503 The service is currently unavailable."]
     ++ [Log ERROR "Fatal error during deletion: 503 The service is currently unavailable."])
  ∧ identity_calls (trace_of (delete_auth_users true (offline three_identities)))
    = [].
Proof.
  exact (cascade_failure_stops_identity_deletion
           (offline three_identities)
           (with_app (offline three_identities))
           (with_app (offline three_identities))
           [GetApp; LoadCertificate "service-account.json"; InitializeApp]
           [GetApp; FirestoreClientCall; Stream (mkCollection "users");
            Log ERROR "Fatal error during Firestore deletion: 503 The service is currently unavailable."]
           (other "503 The service is currently unavailable.")
           eq_refl eq_refl).
Defined.

Lemma refused_confirmation_deletes_nothing :
  delete_action (with_console ["1"; "no"] three_identities)
  = (Ok (), with_console [] three_identities,
     [Input "Delete from (1: Both Auth and Firestore, 2: Auth only, 3: Firestore only): ";
      Input "Are you sure? This will permanently delete the data (yes/no): ";
      Print "Deletion cancelled"]).
Proof.
  apply (deletion_needs_confirmation_and_scope
           (with_console ["1"; "no"] three_identities)
           (with_console ["no"] three_identities)
           (with_console [] three_identities) "1" "no");
    [reflexivity | reflexivity | left; discriminate].
Defined.

Lemma missing_export_file_is_fatal :
  main 1 (with_console ["1"] empty_project)
  = (Raise (other "No such file or directory: cognito_users.json"),
     with_app (with_console [] empty_project),
     Input "Choose action (1: Migrate users, 2: Delete users, 3: Exit): "
     :: [GetApp; LoadCertificate "service-account.json"; InitializeApp;
         FirestoreClientCall]
        ++ [OpenJsonLoad "cognito_users.json";
            Log ERROR "Fatal error: No such file or directory: cognito_users.json"]).
Proof.
  destruct (main_reraises_after_fatal_log 0 (with_console ["1"] empty_project))
    as (_ & _ & Hfile & _).
  apply (Hfile FirestoreClient
           (other "No such file or directory: cognito_users.json")
           (with_console [] empty_project)
           (with_app (with_console [] empty_project))
           (with_app (with_console [] empty_project))
           [GetApp; LoadCertificate "service-account.json"; InitializeApp;
            FirestoreClientCall]);
    reflexivity.
Defined.

End FurtherRuns.
